(** * Checksum-based spreadsheet-to-grid synchronisation (playrix/main.py)

    A shallow embedding of the synchronisation script: the row checksum,
    the two snapshot builders, the diff functions [sheets_equal] and
    [find_new_rows], the two push operations of the Gridly client and the
    bootstrap and cycle parts of [main].

    Modelling conventions.
    - A Python [str] is a Rocq [string]: the sequence of bytes of its UTF-8
      encoding.  [str.encode()] is then the list of those bytes, and
      string concatenation is concatenation of the encodings.
    - A Python [int] is a [Z].
    - A Python [dict] with string keys is an insertion-ordered association
      list ([pydict]): iteration order is insertion order, and assigning to
      an existing key keeps its place.  The throw-away dictionary of
      [sheets_equal], which is only looked up, is a [gmap Z Z].
    - Logging and HTTP traffic are recorded in a [World]; exceptions are
      values of [exn] threaded through the monad [M].
    - The test [k not in d] followed by [d[k]] is one [dict_get].
    - The pause between two passes of the loop ([time.sleep]) has no
      counterpart; the endless loop is run for a given list of passes. *)

From Stdlib Require Import ZArith List String Ascii Lia Sorted DecimalString.
From stdpp Require Import base option list gmap strings.

Import ListNotations.
Local Open Scope Z_scope.
Local Open Scope string_scope.
Local Open Scope list_scope.

(** ** Data classes *)

(** [RowChecksum]: row index, checksum and cell values of one row. *)
Record RowChecksum := mkRow {
  row_id : Z;
  row_checksum : Z;
  row_content : list string
}.

(** [SheetChecksum]: title, optional Gridly view id, hashed rows.  The
    dataclass default [hashed_rows = None] is replaced by a fresh empty
    list in [__post_init__]. *)
Record SheetChecksum := mkSheet {
  sheet_title : string;
  reference : option string;
  hashed_rows : list RowChecksum
}.

Definition SheetChecksum_new (title : string) : SheetChecksum :=
  {| sheet_title := title; reference := None; hashed_rows := [] |}.

(** [sheet.reference = ref] *)
Definition set_reference (sheet : SheetChecksum) (ref : option string)
  : SheetChecksum :=
  {| sheet_title := sheet_title sheet; reference := ref;
     hashed_rows := hashed_rows sheet |}.

(** Typed dictionaries of the Gridly API. *)
Record Cell := mkCell { columnId : string; value : string }.
Record Record_ := mkRecord { id : string; cells : list Cell }.
Record Grid := mkGrid { grid_id : string; grid_name : string }.
Record View := mkView { view_id : string; view_name : string; gridId : string }.

(** ** CRC-32 as computed by [zlib.crc32]

    The reflected CRC-32 (polynomial 0xEDB88320, initial value and final
    xor 0xFFFFFFFF), processed bit by bit. *)
Module Zlib.

Definition poly : Z := 0xEDB88320.
Definition mask32 : Z := 0xFFFFFFFF.

Definition step (c : Z) : Z :=
  if Z.testbit c 0 then Z.lxor (Z.shiftr c 1) poly else Z.shiftr c 1.

Definition update (c : Z) (b : Z) : Z :=
  Nat.iter 8 step (Z.lxor c b).

Definition crc32 (data : list Z) : Z :=
  Z.lxor (fold_left update data mask32) mask32.

End Zlib.

(** [s.encode()]: the bytes of a string, as integers in 0..255. *)
Definition byte_of_ascii (a : ascii) : Z := Z.of_N (N_of_ascii a).

Fixpoint encode (s : string) : list Z :=
  match s with
  | EmptyString => []
  | String a rest => byte_of_ascii a :: encode rest
  end.

(** [compute_row_hash]: join the cells with the empty separator, encode,
    and take the CRC-32. *)
Definition compute_row_hash (row_data : list string) : Z :=
  let concatenated := String.concat EmptyString row_data in
  Zlib.crc32 (encode concatenated).

(** ** Python containers *)

(** [enumerate(l, start)]. *)
Fixpoint enumerate {A : Type} (start : Z) (l : list A) : list (Z * A) :=
  match l with
  | [] => []
  | x :: rest => (start, x) :: enumerate (start + 1) rest
  end.

(** [l[-n:]] for [n > 0]: the last [n] elements, the whole list when it is
    shorter than [n]. *)
Definition slice_last {A : Type} (n : Z) (l : list A) : list A :=
  drop (Z.to_nat (Z.max (Z.of_nat (length l) - n) 0)) l.

(** Insertion-ordered dictionary with string keys. *)
Definition pydict (V : Type) : Type := list (string * V).

Fixpoint dict_get {V : Type} (k : string) (d : pydict V) : option V :=
  match d with
  | [] => None
  | (k', v) :: rest => if String.eqb k k' then Some v else dict_get k rest
  end.

(** [d[k] = v] *)
Fixpoint dict_set {V : Type} (k : string) (v : V) (d : pydict V) : pydict V :=
  match d with
  | [] => [(k, v)]
  | (k', v') :: rest =>
      if String.eqb k k' then (k', v) :: rest else (k', v') :: dict_set k v rest
  end.

(** [d.items()] *)
Definition dict_items {V : Type} (d : pydict V) : list (string * V) := d.

(** Truth value of an optional list: [None] and [[]] are both false. *)
Definition truthy {A : Type} (r : option (list A)) : bool :=
  match r with
  | Some (_ :: _) => true
  | _ => false
  end.

(** [str(n)] for an integer. *)
Definition str_of_int (n : Z) : string :=
  NilZero.string_of_int (Z.to_int n).

(** [str.split(',')] *)
Fixpoint split_comma_go (cur : string) (s : string) : list string :=
  match s with
  | EmptyString => [cur]
  | String a rest =>
      if Ascii.eqb a ","%char then cur :: split_comma_go EmptyString rest
      else split_comma_go (cur +:+ String a EmptyString) rest
  end.

Definition split_comma (s : string) : list string := split_comma_go EmptyString s.

(** ** Effects: log, HTTP traffic, exceptions *)

Inductive exn :=
| HttpError (what : string)
| KeyError (key : string)
| IndexError
| ValueError (msg : string).

Definition exn_str (e : exn) : string :=
  match e with
  | HttpError what => what
  | KeyError key => "'" +:+ key +:+ "'"
  | IndexError => "list index out of range"
  | ValueError msg => msg
  end.

Inductive Level := INFO | ERROR.

(** A log record.  The two messages that format a Python list keep the
    list instead of its [repr]. *)
Inductive LogMessage :=
| Text (s : string)
| SheetNamesText (sheet_names : list string)
| NewRowsText (new_rows : option (list RowChecksum)).

Record LogRecord := mkLog { level : Level; message : LogMessage }.

Inductive Body :=
| NoBody
| RecordsBody (records : list Record_)
| RecordBody (record : Record_).

Record ApiRequest := mkRequest {
  method : string;
  url : string;
  body : Body
}.

Record World := mkWorld {
  log : list LogRecord;
  wire : list ApiRequest
}.

Definition empty_world : World := {| log := []; wire := [] |}.

Inductive outcome (A : Type) :=
| Return (a : A)
| Raise (e : exn).
Arguments Return {A} a.
Arguments Raise {A} e.

Definition M (A : Type) : Type := World -> outcome A * World.

#[global] Instance M_ret : MRet M := fun A a w => (Return a, w).

#[global] Instance M_bind : MBind M := fun A B f m w =>
  match m w with
  | (Return a, w') => f a w'
  | (Raise e, w') => (Raise e, w')
  end.

Definition raise {A : Type} (e : exn) : M A := fun w => (Raise e, w).

(** [try: m  except Exception as e: handler e] *)
Definition try_except {A : Type} (m : M A) (handler : exn -> M A) : M A :=
  fun w =>
    match m w with
    | (Return a, w') => (Return a, w')
    | (Raise e, w') => handler e w'
    end.

Definition logging_info (msg : LogMessage) : M unit :=
  fun w => (Return tt,
            {| log := log w ++ [mkLog INFO msg]; wire := wire w |}).

Definition logging_error (msg : LogMessage) : M unit :=
  fun w => (Return tt,
            {| log := log w ++ [mkLog ERROR msg]; wire := wire w |}).

Definition send (r : ApiRequest) : M unit :=
  fun w => (Return tt, {| log := log w; wire := wire w ++ [r] |}).

(** [for x in l: acc = body acc x], stopping at the first exception. *)
Fixpoint for_each {A S : Type} (l : list A) (body : S -> A -> M S) (acc : S)
  : M S :=
  match l with
  | [] => mret acc
  | x :: rest => acc' ← body acc x; for_each rest body acc'
  end.

(** [d[k]], raising [KeyError]. *)
Definition dict_getitem {V : Type} (k : string) (d : pydict V) : M V :=
  match dict_get k d with
  | Some v => mret v
  | None => raise (KeyError k)
  end.

(** [l[0]], raising [IndexError]. *)
Definition list_first {A : Type} (l : list A) : M A :=
  match l with
  | x :: _ => mret x
  | [] => raise IndexError
  end.

(** ** The Gridly client *)

(** What the Gridly service answers to the requests of this program.  A
    [None] answer stands for a response on which [raise_for_status]
    raises; an empty response body ([{}]) is the empty list. *)
Record GridlyClient := mkGridly {
  api_key : string;
  get_grids : string -> option (list Grid);
  get_views : string -> option (list View);
  get_records : string -> option (list Record_);
  write_ok : ApiRequest -> bool
}.

Definition base_url : string := "https://api.gridly.com/v1".

(** An optional view id inside an f-string. *)
Definition fmt_ref (view : option string) : string :=
  match view with
  | Some v => v
  | None => "None"
  end.

(** [execute_api_request]: send the request, raise on an error status,
    return the decoded answer. *)
Definition execute_api_request {A : Type} (method endpoint : string)
    (body : Body) (answer : option A) : M A :=
  let url := base_url +:+ endpoint in
  send {| method := method; url := url; body := body |};;
  match answer with
  | Some json => mret json
  | None => raise (HttpError url)
  end.

(** The cells built from [row_content[1:]]:
    [{"columnId": f"column{i+1}", "value": value}] for each enumerated
    value. *)
Definition cells_of_values (column_values : list string) : list Cell :=
  map (fun iv : Z * string =>
         {| columnId := "column" +:+ str_of_int (fst iv + 1);
            value := snd iv |})
      (enumerate 0 column_values).

(** One iteration of the record-building loops: [row.row_content[0]] is
    the record id, the remaining values become the cells. *)
Definition record_of_row (row : RowChecksum) : M Record_ :=
  record_id ← list_first (row_content row);
  let column_values := drop 1 (row_content row) in
  let cells := cells_of_values column_values in
  mret {| id := record_id; cells := cells |}.

(** The body of the loop of [add_rows_to_gridly]. *)
Definition append_record (records : list Record_) (row : RowChecksum)
  : M (list Record_) :=
  record ← record_of_row row;
  mret (records ++ [record]).

Definition add_rows_to_gridly (self : GridlyClient) (view_id : option string)
    (new_rows : list RowChecksum) : M unit :=
  let endpoint := "/views/" +:+ fmt_ref view_id +:+ "/records" in
  records ← for_each new_rows append_record [];
  let request := {| method := "POST"; url := base_url +:+ endpoint;
                    body := RecordsBody records |} in
  execute_api_request "POST" endpoint (RecordsBody records)
    (if write_ok self request then Some tt else None);;
  logging_info (Text "New rows were added to Gridly.").

(** The body of the loop of [update_gridly_row]. *)
Definition update_one_row (self : GridlyClient) (view_id : option string)
    (_ : unit) (row : RowChecksum) : M unit :=
  record ← record_of_row row;
  let endpoint :=
    "/views/" +:+ fmt_ref view_id +:+ "/records/" +:+ id record in
  let request := {| method := "PATCH"; url := base_url +:+ endpoint;
                    body := RecordBody record |} in
  execute_api_request "PATCH" endpoint (RecordBody record)
    (if write_ok self request then Some tt else None);;
  logging_info (Text ("Successfully updated record " +:+ id record)).

Definition update_gridly_row (self : GridlyClient) (view_id : option string)
    (rows : list RowChecksum) : M unit :=
  for_each rows (update_one_row self view_id) tt.

Definition fetch_grids_by_database_id (self : GridlyClient)
    (database_id : string) : M (list Grid) :=
  let endpoint := "/grids?dbId=" +:+ database_id in
  execute_api_request "GET" endpoint NoBody (get_grids self endpoint).

Definition fetch_grid_view (self : GridlyClient) (grid_id : string) : M View :=
  let endpoint := "/views?gridId=" +:+ grid_id in
  views ← execute_api_request "GET" endpoint NoBody (get_views self endpoint);
  match views with
  | [] => raise (ValueError "No views found")
  | v :: _ => mret v
  end.

Definition fetch_records_for_view (self : GridlyClient) (view_id : string)
  : M (list Record_) :=
  let endpoint := "/views/" +:+ view_id +:+ "/records" in
  execute_api_request "GET" endpoint NoBody (get_records self endpoint).

(** ** The Google Sheets client *)

(** What the Sheets service answers for a spreadsheet id and a range:
    the [values] of the result, or an exception. *)
Record SheetsClient := mkSheets {
  service : string -> string -> outcome (list (list string))
}.

(** [get_sheet_data]: an [HttpError] is logged and raised again; any other
    exception passes through. *)
Definition get_sheet_data (self : SheetsClient)
    (spreadsheet_id range_name : string) : M (list (list string)) :=
  match service self spreadsheet_id range_name with
  | Return values => mret values
  | Raise (HttpError what) =>
      logging_error (Text ("Error fetching sheet data: " +:+ what));;
      raise (HttpError what)
  | Raise e => raise e
  end.

(** ** Diff functions *)

(** [{row.row_id: row.row_checksum for row in rows}] *)
Definition checksum_dict (rows : list RowChecksum) : gmap Z Z :=
  fold_left (fun d row => <[row_id row := row_checksum row]> d) rows ∅.

(** The condition of the comparison loop:
    [row.row_id in d and d[row.row_id] != row.row_checksum]. *)
Definition row_differs (d : gmap Z Z) (row : RowChecksum) : bool :=
  match d !! row_id row with
  | Some c => negb (Z.eqb c (row_checksum row))
  | None => false
  end.

Definition sheets_equal (gridly_title : string) (hashed_sheet : SheetChecksum)
    (google_sheets : pydict SheetChecksum) : option (list RowChecksum) :=
  match dict_get gridly_title google_sheets with
  | None => None
  | Some google_sheet =>
      let hashed_sheet_dict := checksum_dict (hashed_rows hashed_sheet) in
      Some (fold_left
              (fun rows_to_push row =>
                 if row_differs hashed_sheet_dict row
                 then rows_to_push ++ [row] else rows_to_push)
              (hashed_rows google_sheet) [])
  end.

Definition find_new_rows (current_google_hash : pydict SheetChecksum)
    (gridly_sheet : SheetChecksum) : option (list RowChecksum) :=
  match dict_get (sheet_title gridly_sheet) current_google_hash with
  | None => None
  | Some google_sheet =>
      let diff := Z.of_nat (length (hashed_rows google_sheet))
                  - Z.of_nat (length (hashed_rows gridly_sheet)) in
      if (diff <=? 0)%Z then None
      else Some (slice_last diff (hashed_rows google_sheet))
  end.

(** ** Snapshot builders and the main loop *)

Section Environment.

Variable PLAYRIX_SPREAD_SHEET_ID : string.
Variable GRIDLY_DATABASE_ID : string.
Variable SHEET_NAMES : string.

(** The loop of [process_sheet] over [enumerate(data[1:], 1)]. *)
Definition hash_sheet_rows (data : list (list string)) : list RowChecksum :=
  fold_left
    (fun hashed_rows (ir : Z * list string) =>
       let row_checksum := compute_row_hash (snd ir) in
       hashed_rows ++ [mkRow (fst ir - 1) row_checksum (snd ir)])
    (enumerate 1 (drop 1 data)) [].

Definition process_sheet (title : string) (sheets_client : SheetsClient)
    (sheet_hashes : pydict SheetChecksum) : M (pydict SheetChecksum) :=
  try_except
    (data ← get_sheet_data sheets_client PLAYRIX_SPREAD_SHEET_ID title;
     match data with
     | [] => mret sheet_hashes
     | _ :: _ =>
         let hashed_rows := hash_sheet_rows data in
         let sheet_hashes :=
           dict_set title
             {| sheet_title := title; reference := None;
                hashed_rows := hashed_rows |}
             sheet_hashes in
         logging_info
           (Text ("All columns of sheet with title " +:+ title
                  +:+ " were hashed"));;
         mret sheet_hashes
     end)
    (fun e =>
       logging_error
         (Text ("Error processing sheet " +:+ title +:+ ": " +:+ exn_str e));;
       mret sheet_hashes).

(** [[record['id']] + [cell['value'] for cell in record['cells']]] *)
Definition processed_rows_of (record : Record_) : list string :=
  [id record] ++ map value (cells record).

(** The loop of [process_gridly_grid] over [enumerate(records)]. *)
Definition hash_grid_records (hashed_rows : list RowChecksum)
    (records : list Record_) : list RowChecksum :=
  fold_left
    (fun hashed_rows (ir : Z * Record_) =>
       let processed_rows := processed_rows_of (snd ir) in
       let row_hash := compute_row_hash processed_rows in
       hashed_rows ++ [mkRow (fst ir) row_hash processed_rows])
    (enumerate 0 records) hashed_rows.

Definition process_gridly_grid (grid : Grid)
    (gridly_sheets : pydict SheetChecksum) (client : GridlyClient)
  : M (pydict SheetChecksum) :=
  try_except
    (let gridly_sheet := SheetChecksum_new (grid_name grid) in
     view ← fetch_grid_view client (grid_id grid);
     let gridly_sheet := set_reference gridly_sheet (Some (view_id view)) in
     records ← fetch_records_for_view client (view_id view);
     let gridly_sheet :=
       {| sheet_title := sheet_title gridly_sheet;
          reference := reference gridly_sheet;
          hashed_rows :=
            hash_grid_records (hashed_rows gridly_sheet) records |} in
     mret (dict_set (grid_name grid) gridly_sheet gridly_sheets))
    (fun e =>
       logging_error
         (Text ("Error processing Gridly grid " +:+ grid_name grid +:+ ": "
                +:+ exn_str e));;
       mret gridly_sheets).

(** The status word of the bootstrap comparison:
    ["fully matches" if rows else "does not match"]. *)
Definition initial_status (rows : option (list RowChecksum)) : string :=
  if truthy rows then "fully matches" else "does not match".

Definition initial_status_line (title : string) (sheet : SheetChecksum)
    (init_sheet_hash : pydict SheetChecksum) : LogMessage :=
  let rows := sheets_equal title sheet init_sheet_hash in
  let status := initial_status rows in
  Text ("GRIDLY Sheet <" +:+ title +:+ "> <" +:+ status
        +:+ "> the initial Google Sheet").

(** The bootstrap comparison loop over [gridly_sheets.items()]. *)
Definition initial_comparison (gridly_sheets init_sheet_hash
                               : pydict SheetChecksum) : M unit :=
  for_each (dict_items gridly_sheets)
    (fun _ (item : string * SheetChecksum) =>
       logging_info
         (initial_status_line (fst item) (snd item) init_sheet_hash))
    tt.

(** [for title in sheet_names: process_sheet(title, sheets_client, hashes)]
    starting from an empty dictionary. *)
Definition read_all_sheets (sheet_names : list string)
    (sheets_client : SheetsClient) : M (pydict SheetChecksum) :=
  for_each sheet_names
    (fun hashes title => process_sheet title sheets_client hashes) [].

(** The body of the synchronisation loop for one item of
    [gridly_sheets.items()].  The loop state is the pair of
    [current_google_hash] and the variable [gridly_sheets]; the last
    statement of the body rebinds [gridly_sheets] to the dictionary that
    [current_google_hash] names, so both components are the same
    dictionary from then on. *)
Definition sync_sheet (gridly_client : GridlyClient)
    (state : pydict SheetChecksum * pydict SheetChecksum)
    (item : string * SheetChecksum)
  : M (pydict SheetChecksum * pydict SheetChecksum) :=
  let current_google_hash := fst state in
  let title := fst item in
  let sheet := snd item in
  google_sheet ← dict_getitem title current_google_hash;
  let current_google_hash :=
    dict_set title (set_reference google_sheet (reference sheet))
      current_google_hash in
  let rows_to_push := sheets_equal title sheet current_google_hash in
  (if truthy rows_to_push then
     logging_info
       (Text ("GRIDLY Sheet <" +:+ title
              +:+ "> needs update to match Google Sheet"));;
     update_gridly_row gridly_client (reference sheet)
       (default [] rows_to_push)
   else mret tt);;
  let new_rows := find_new_rows current_google_hash sheet in
  logging_info (NewRowsText new_rows);;
  (if truthy new_rows then
     logging_info (Text ("Adding new rows to Gridly Sheet " +:+ title));;
     add_rows_to_gridly gridly_client (reference sheet) (default [] new_rows)
   else
     logging_info
       (Text ("GRIDLY Sheet <" +:+ title
              +:+ "> fully matches the updated Google Sheet")));;
  mret (current_google_hash, current_google_hash).

(** One pass of the [while True] body, up to the pause: returns the value
    of [gridly_sheets] for the next pass. *)
Definition sync_cycle (sheet_names : list string)
    (sheets_client : SheetsClient) (gridly_client : GridlyClient)
    (gridly_sheets : pydict SheetChecksum) : M (pydict SheetChecksum) :=
  logging_info (Text "Starting a new Gridly synchronization check...");;
  current_google_hash ← read_all_sheets sheet_names sheets_client;
  state ← for_each (dict_items gridly_sheets) (sync_sheet gridly_client)
            (current_google_hash, gridly_sheets);
  mret (snd state).

(** Everything before the loop: both sides are read and compared once. *)
Definition bootstrap (sheet_names : list string)
    (sheets_client : SheetsClient) (gridly_client : GridlyClient)
  : M (pydict SheetChecksum) :=
  init_sheet_hash ← read_all_sheets sheet_names sheets_client;
  grids ← fetch_grids_by_database_id gridly_client GRIDLY_DATABASE_ID;
  gridly_sheets ← for_each grids
                    (fun sheets grid =>
                       process_gridly_grid grid sheets gridly_client) [];
  logging_info
    (Text "All initial sheets processed and checksums calculated.");;
  initial_comparison gridly_sheets init_sheet_hash;;
  mret gridly_sheets.

(** The passes of the loop against the successive states of the
    spreadsheet, one per pass; the first exception ends them. *)
Definition run_cycles (sheet_names : list string)
    (passes : list SheetsClient) (gridly_client : GridlyClient)
    (gridly_sheets : pydict SheetChecksum) : M (pydict SheetChecksum) :=
  for_each passes
    (fun sheets sheets_client =>
       sync_cycle sheet_names sheets_client gridly_client sheets)
    gridly_sheets.

(** [main], for a spreadsheet observed at bootstrap and then once per
    pass of the loop.  An exception leaving the [try] block is logged as
    fatal and raised again; the result [Return] stands for the loop still
    running after the given passes. *)
Definition main (at_start : SheetsClient) (passes : list SheetsClient)
    (gridly_client : GridlyClient) : M (pydict SheetChecksum) :=
  logging_info (Text "Program started...");;
  let sheet_names := split_comma SHEET_NAMES in
  logging_info (SheetNamesText sheet_names);;
  try_except
    (gridly_sheets ← bootstrap sheet_names at_start gridly_client;
     run_cycles sheet_names passes gridly_client gridly_sheets)
    (fun e =>
       logging_error (Text ("Fatal error in main loop: " +:+ exn_str e));;
       raise e).

End Environment.

(** ** Vocabulary of the properties *)

(** The rows a diff result carries.  The callers only test a result for
    truth, so [None] and the empty list both stand for "no rows". *)
Definition reported (r : option (list RowChecksum)) : list RowChecksum :=
  default [] r.

Definition positions (rows : list RowChecksum) : list Z := map row_id rows.

(** The positions of a snapshot are exactly [0 .. len(rows)-1], in order. *)
Definition gapless (rows : list RowChecksum) : Prop :=
  positions rows = map Z.of_nat (seq 0 (length rows)).

#[global] Instance gapless_dec rows : Decision (gapless rows).
Proof. unfold gapless. apply _. Defined.

(** "The position of [row] exists in the baseline and the checksum there
    differs": the specification side of the comparison. *)
Definition changed_at (baseline : list RowChecksum) (row : RowChecksum)
  : bool :=
  (0 <=? row_id row)%Z
  && match baseline !! Z.to_nat (row_id row) with
     | Some b => negb (row_checksum b =? row_checksum row)%Z
     | None => false
     end.

(** Every snapshot held by a dictionary has gapless positions. *)
Definition all_gapless (d : pydict SheetChecksum) : Prop :=
  Forall (fun item => gapless (hashed_rows (snd item))) d.

(** ["column1", ..., "columnN"] *)
Definition column_names (n : nat) : list string :=
  map (fun i => "column" +:+ str_of_int (Z.of_nat i)) (seq 1 n).

(** [record] is what the push operations build from [row]: its id is
    [row_content[0]] and its cells carry [row_content[1:]], in order,
    under the column ids "column1", "column2", ... *)
Definition record_matches_row (row : RowChecksum) (record : Record_) : Prop :=
  exists column_values,
    row_content row = id record :: column_values
    /\ map value (cells record) = column_values
    /\ map columnId (cells record) = column_names (length column_values).

(** A request sent by [update_gridly_row] for [row]. *)
Definition patch_of_row (view : option string) (row : RowChecksum)
    (request : ApiRequest) : Prop :=
  exists record,
    record_matches_row row record
    /\ method request = "PATCH"
    /\ url request
       = base_url +:+ ("/views/" +:+ fmt_ref view +:+ "/records/"
                       +:+ id record)
    /\ body request = RecordBody record.

Definition patch_request (view : option string) (record : Record_)
  : ApiRequest :=
  {| method := "PATCH";
     url := base_url +:+ ("/views/" +:+ fmt_ref view +:+ "/records/"
                          +:+ id record);
     body := RecordBody record |}.

(** The snapshot that [process_sheet] stores for a title, when it stores
    one: the answer of the service has at least a header row. *)
Definition expected_snapshot (sid : string) (sheets_client : SheetsClient)
    (title : string) : option SheetChecksum :=
  match service sheets_client sid title with
  | Return (header :: rest) =>
      Some {| sheet_title := title; reference := None;
              hashed_rows := hash_sheet_rows (header :: rest) |}
  | _ => None
  end.

(** The dictionary that the reads of one pass build, without the log. *)
Definition store_sheet (sid : string) (sheets_client : SheetsClient)
    (hashes : pydict SheetChecksum) (title : string) : pydict SheetChecksum :=
  match expected_snapshot sid sheets_client title with
  | Some sheet => dict_set title sheet hashes
  | None => hashes
  end.

Definition fresh_hashes (sid : string) (sheet_names : list string)
    (sheets_client : SheetsClient) : pydict SheetChecksum :=
  fold_left (store_sheet sid sheets_client) sheet_names [].

(** Two dictionaries hold the same keys, in the same order, with the same
    titles and rows; only the references may differ. *)
Definition same_rows (d1 d2 : pydict SheetChecksum) : Prop :=
  Forall2 (fun a b : string * SheetChecksum =>
             fst a = fst b
             /\ sheet_title (snd a) = sheet_title (snd b)
             /\ hashed_rows (snd a) = hashed_rows (snd b)) d1 d2.

(** Every snapshot is stored under its own title and has gapless
    positions. *)
Definition titled_gapless (d : pydict SheetChecksum) : Prop :=
  Forall (fun item : string * SheetChecksum =>
            sheet_title (snd item) = fst item
            /\ gapless (hashed_rows (snd item))) d.

(** The record that the push operations build from a row with at least
    one cell. *)
Definition record_for (row : RowChecksum) : Record_ :=
  {| id := hd EmptyString (row_content row);
     cells := cells_of_values (drop 1 (row_content row)) |}.

Definition post_request (view : option string) (records : list Record_)
  : ApiRequest :=
  {| method := "POST";
     url := base_url +:+ ("/views/" +:+ fmt_ref view +:+ "/records");
     body := RecordsBody records |}.

Definition has_cells (row : RowChecksum) : bool :=
  match row_content row with
  | [] => false
  | _ :: _ => true
  end.

(** A row that [update_gridly_row] pushes without an exception. *)
Definition pushable (self : GridlyClient) (view : option string)
    (row : RowChecksum) : bool :=
  has_cells row && write_ok self (patch_request view (record_for row)).

Definition updated_line (row : RowChecksum) : LogRecord :=
  mkLog INFO (Text ("Successfully updated record " +:+ id (record_for row))).






(** ** Example data *)

Definition base_orders : SheetChecksum :=
  {| sheet_title := "Orders"; reference := Some "view1";
     hashed_rows := [mkRow 0 11 ["id1"; "foo"]; mkRow 1 22 ["id2"; "x"]] |}.

Definition google_orders : pydict SheetChecksum :=
  [("Orders",
    {| sheet_title := "Orders"; reference := None;
       hashed_rows := [mkRow 0 99 ["id1"; "bar"]; mkRow 1 22 ["id2"; "x"];
                       mkRow 2 33 ["id3"; "y"]] |})].

Definition second_row_changed : SheetChecksum :=
  {| sheet_title := "Orders"; reference := None;
     hashed_rows := [mkRow 0 11 ["id1"; "foo"]; mkRow 1 77 ["id2"; "z"]] |}.

Definition grown_orders : pydict SheetChecksum :=
  [("Orders",
    {| sheet_title := "Orders"; reference := None;
       hashed_rows := hashed_rows base_orders
                      ++ [mkRow 2 33 ["id3"; "y"]; mkRow 3 44 ["id4"]] |})].

Definition orders_client : SheetsClient :=
  mkSheets (fun _ _ => Return [["id"; "name"]; ["id1"; "foo"]; ["id2"; "x"]]).

Definition orders_gridly : GridlyClient :=
  mkGridly "key"
    (fun _ => Some [mkGrid "g1" "Orders"])
    (fun _ => Some [mkView "view1" "Default" "g1"])
    (fun _ => Some [mkRecord "id1" [mkCell "column1" "bar"]])
    (fun _ => true).

(** Two tables on both sides; in the pass the read of "Orders" fails
    while "Stock" has a changed first row. *)
Definition two_tables_start : SheetsClient :=
  mkSheets (fun _ _ => Return [["id"; "name"]; ["id1"; "bar"]]).

Definition orders_read_fails : SheetsClient :=
  mkSheets (fun _ title =>
              if String.eqb title "Orders" then Raise (HttpError "503")
              else Return [["id"; "name"]; ["id1"; "changed"]]).

Definition two_tables_gridly : GridlyClient :=
  mkGridly "key"
    (fun _ => Some [mkGrid "g1" "Orders"; mkGrid "g2" "Stock"])
    (fun _ => Some [mkView "view1" "Default" "g"])
    (fun _ => Some [mkRecord "id1" [mkCell "column1" "bar"]])
    (fun _ => true).

Definition two_tables_state : pydict SheetChecksum :=
  [("Orders",
    {| sheet_title := "Orders"; reference := Some "view1";
       hashed_rows := [mkRow 0 866313408 ["id1"; "bar"]] |});
   ("Stock",
    {| sheet_title := "Stock"; reference := Some "view1";
       hashed_rows := [mkRow 0 866313408 ["id1"; "bar"]] |})].

(** * Properties *)

(** ** Generic facts about the loops *)

Lemma fold_left_append_map {A B : Type} (f : A -> B) (l : list A)
    (acc : list B) :
  fold_left (fun acc x => acc ++ [f x]) l acc = acc ++ map f l.
Proof.
  revert acc. induction l as [|x l IH]; intros acc; simpl.
  - by rewrite app_nil_r.
  - rewrite IH, <- app_assoc. reflexivity.
Qed.

Lemma fold_left_append_filter {A : Type} (p : A -> bool) (l : list A)
    (acc : list A) :
  fold_left (fun acc x => if p x then acc ++ [x] else acc) l acc
  = acc ++ List.filter p l.
Proof.
  revert acc. induction l as [|x l IH]; intros acc; simpl.
  - by rewrite app_nil_r.
  - rewrite IH. destruct (p x); [|reflexivity].
    rewrite <- app_assoc. reflexivity.
Qed.

Lemma enumerate_length {A : Type} (start : Z) (l : list A) :
  length (enumerate start l) = length l.
Proof. revert start. induction l; intros; simpl; auto. Qed.

Lemma enumerate_snd {A : Type} (start : Z) (l : list A) :
  map snd (enumerate start l) = l.
Proof. revert start. induction l; intros; simpl; f_equal; auto. Qed.

Lemma enumerate_fst {A : Type} (start : Z) (l : list A) :
  map fst (enumerate start l)
  = map (fun i => start + Z.of_nat i) (seq 0 (length l)).
Proof.
  revert start. induction l as [|x l IH]; intros start; simpl; [done|].
  f_equal; [lia|]. rewrite IH, <- seq_shift, map_map.
  apply map_ext. intros i. lia.
Qed.

(** ** Positions *)

Lemma gapless_lookup rows :
  gapless rows <->
  forall (i : nat) row, rows !! i = Some row -> row_id row = Z.of_nat i.
Proof.
  unfold gapless, positions. split.
  - intros H i row Hi.
    assert (Hlt : (i < length rows)%nat) by (by eapply lookup_lt_Some).
    assert (Hm : map row_id rows !! i = Some (row_id row)).
    { change (map row_id rows) with (row_id <$> rows).
      by rewrite list_lookup_fmap, Hi. }
    rewrite H in Hm.
    change (map Z.of_nat (seq 0 (length rows)))
      with (Z.of_nat <$> seq 0 (length rows)) in Hm.
    rewrite list_lookup_fmap, lookup_seq_lt in Hm by done.
    simpl in Hm. congruence.
  - intros H. apply list_eq. intros i.
    change (map row_id rows) with (row_id <$> rows).
    change (map Z.of_nat (seq 0 (length rows)))
      with (Z.of_nat <$> seq 0 (length rows)).
    rewrite !list_lookup_fmap.
    destruct (rows !! i) as [row|] eqn:Hi; simpl.
    + rewrite lookup_seq_lt by (by eapply lookup_lt_Some).
      simpl. f_equal. by apply H.
    + rewrite lookup_seq_ge; [done|]. by apply lookup_ge_None.
Qed.

Lemma gapless_app_inv rows extra :
  gapless (rows ++ extra) -> gapless rows.
Proof.
  rewrite !gapless_lookup. intros H i row Hi. apply H.
  by apply lookup_app_l_Some.
Qed.

Lemma gapless_bound rows row :
  gapless rows -> row ∈ rows -> 0 <= row_id row < Z.of_nat (length rows).
Proof.
  rewrite gapless_lookup. intros H Hin.
  apply list_elem_of_lookup in Hin as [i Hi].
  rewrite (H i row Hi). apply lookup_lt_Some in Hi. lia.
Qed.

(** ** The checksum dictionary of the baseline *)

Lemma checksum_dict_snoc rows row :
  checksum_dict (rows ++ [row])
  = <[row_id row := row_checksum row]> (checksum_dict rows).
Proof. unfold checksum_dict. by rewrite fold_left_app. Qed.

(** For a gapless baseline the dictionary maps a position to the checksum
    of the row at that index, and holds no other key. *)
Lemma checksum_dict_gapless rows (k : Z) :
  gapless rows ->
  checksum_dict rows !! k
  = if decide (0 <= k) then row_checksum <$> rows !! Z.to_nat k else None.
Proof.
  induction rows as [|row rows IH] using rev_ind; intros Hg.
  - unfold checksum_dict. simpl. rewrite lookup_empty.
    by case_decide.
  - pose proof (gapless_app_inv _ _ Hg) as Hg'.
    assert (Hid : row_id row = Z.of_nat (length rows)).
    { apply (proj1 (gapless_lookup _) Hg).
      rewrite lookup_app_r by lia. by rewrite Nat.sub_diag. }
    rewrite checksum_dict_snoc, lookup_insert, (IH Hg'), Hid.
    destruct (decide (Z.of_nat (length rows) = k)) as [Hk|Hk].
    + subst k. rewrite decide_True by lia.
      rewrite Nat2Z.id, lookup_app_r by lia. by rewrite Nat.sub_diag.
    + destruct (decide (0 <= k)) as [H0|H0]; [|done].
      destruct (decide (Z.to_nat k < length rows)%nat) as [Hlt|Hge].
      * by rewrite lookup_app_l.
      * rewrite !lookup_ge_None_2; [done| |lia].
        rewrite length_app. simpl. lia.
Qed.

Lemma row_differs_gapless baseline row :
  gapless baseline ->
  row_differs (checksum_dict baseline) row = changed_at baseline row.
Proof.
  intros Hg. unfold row_differs, changed_at.
  rewrite (checksum_dict_gapless _ _ Hg).
  case_decide as H0.
  - rewrite (proj2 (Z.leb_le _ _) H0). simpl.
    by destruct (baseline !! Z.to_nat (row_id row)).
  - rewrite (proj2 (Z.leb_gt _ _)) by lia. done.
Qed.

Lemma changed_at_true baseline row :
  gapless baseline ->
  changed_at baseline row = true <->
  exists b, b ∈ baseline /\ row_id b = row_id row
            /\ row_checksum b <> row_checksum row.
Proof.
  intros Hg. unfold changed_at. rewrite andb_true_iff, Z.leb_le. split.
  - intros [H0 Hb].
    destruct (baseline !! Z.to_nat (row_id row)) as [b|] eqn:Hl; [|done].
    exists b. split; [by eapply list_elem_of_lookup_2|]. split.
    + rewrite (proj1 (gapless_lookup _) Hg _ _ Hl). lia.
    + apply negb_true_iff, Z.eqb_neq in Hb. done.
  - intros (b & Hin & Hid & Hne).
    apply list_elem_of_lookup in Hin as [i Hi].
    pose proof (proj1 (gapless_lookup _) Hg _ _ Hi) as Hbi.
    assert (Z.to_nat (row_id row) = i) as -> by lia.
    rewrite Hi. split; [lia|].
    by apply negb_true_iff, Z.eqb_neq.
Qed.

Lemma sheets_equal_filter title baseline google_sheets candidate :
  dict_get title google_sheets = Some candidate ->
  sheets_equal title baseline google_sheets
  = Some (List.filter (row_differs (checksum_dict (hashed_rows baseline)))
            (hashed_rows candidate)).
Proof.
  intros Hget. unfold sheets_equal. rewrite Hget.
  by rewrite fold_left_append_filter.
Qed.

(** C1. For a baseline with gapless positions and a candidate stored
    under the table name, [sheets_equal] returns, in candidate order,
    exactly the candidate rows whose position exists in the baseline and
    whose checksum differs from the baseline checksum at that position;
    no reported row has a position at or beyond the baseline length.
    When the table name is absent from the candidate-side dictionary the
    result is [None], which is not the empty list. *)
Theorem sheets_equal_changed_rows (title : string)
    (baseline : SheetChecksum) (google_sheets : pydict SheetChecksum) :
  gapless (hashed_rows baseline) ->
  (forall candidate,
     dict_get title google_sheets = Some candidate ->
     exists changed,
       sheets_equal title baseline google_sheets = Some changed
       /\ changed = List.filter (changed_at (hashed_rows baseline))
                      (hashed_rows candidate)
       /\ (forall row,
             row ∈ changed <->
             row ∈ hashed_rows candidate
             /\ exists b, b ∈ hashed_rows baseline
                          /\ row_id b = row_id row
                          /\ row_checksum b <> row_checksum row)
       /\ (forall row,
             row ∈ changed ->
             0 <= row_id row < Z.of_nat (length (hashed_rows baseline))))
  /\ (dict_get title google_sheets = None ->
      sheets_equal title baseline google_sheets = None
      /\ sheets_equal title baseline google_sheets <> Some []).
Proof.
  intros Hg. split.
  - intros candidate Hget.
    assert (Hmem : forall row,
      row ∈ List.filter (changed_at (hashed_rows baseline))
              (hashed_rows candidate) <->
      row ∈ hashed_rows candidate
      /\ exists b, b ∈ hashed_rows baseline /\ row_id b = row_id row
                   /\ row_checksum b <> row_checksum row).
    { intros row. rewrite !list_elem_of_In, filter_In, changed_at_true by done.
      reflexivity. }
    eexists. split; [by apply sheets_equal_filter|].
    split; [|split].
    + apply filter_ext. intros row. by apply row_differs_gapless.
    + intros row.
      rewrite (filter_ext _ _ (fun r => row_differs_gapless _ r Hg)).
      apply Hmem.
    + intros row.
      rewrite (filter_ext _ _ (fun r => row_differs_gapless _ r Hg)).
      intros (_ & b & Hb & Hid & _)%Hmem.
      rewrite <- Hid. by apply gapless_bound.
  - intros Hnone. unfold sheets_equal. rewrite Hnone. done.
Qed.

Lemma sheets_equal_changed_rows_witness :
  gapless (hashed_rows base_orders)
  /\ sheets_equal "Orders" base_orders google_orders
     = Some [mkRow 0 99 ["id1"; "bar"]].
Proof.
  assert (Hg : gapless (hashed_rows base_orders)) by (vm_compute; reflexivity).
  split; [exact Hg|].
  destruct (sheets_equal_changed_rows "Orders" base_orders google_orders Hg)
    as [Hsome _].
  destruct (Hsome _ eq_refl) as (changed & Heq & Hfilter & _).
  rewrite Heq, Hfilter. reflexivity.
Defined.

(** ** New-row detection *)

Lemma find_new_rows_drop current_google_hash gridly_sheet candidate :
  dict_get (sheet_title gridly_sheet) current_google_hash = Some candidate ->
  find_new_rows current_google_hash gridly_sheet
  = if decide (length (hashed_rows candidate)
               <= length (hashed_rows gridly_sheet))%nat
    then None
    else Some (drop (length (hashed_rows gridly_sheet))
                 (hashed_rows candidate)).
Proof.
  intros Hget. unfold find_new_rows. rewrite Hget.
  destruct (Z.leb_spec
              (Z.of_nat (length (hashed_rows candidate))
               - Z.of_nat (length (hashed_rows gridly_sheet))) 0) as [Hle|Hgt].
  - by rewrite decide_True by lia.
  - rewrite decide_False by lia. unfold slice_last.
    do 2 f_equal. lia.
Qed.

(** C2. With the candidate stored under the baseline's table name,
    [find_new_rows] computes [extra = len(candidate) - len(baseline)]; for
    [extra <= 0] it reports no new rows (the result is [None]), otherwise
    it returns the candidate's last [extra] rows unchanged and in order. *)
Theorem find_new_rows_tail (current_google_hash : pydict SheetChecksum)
    (gridly_sheet candidate : SheetChecksum) :
  dict_get (sheet_title gridly_sheet) current_google_hash = Some candidate ->
  let extra := Z.of_nat (length (hashed_rows candidate))
               - Z.of_nat (length (hashed_rows gridly_sheet)) in
  (extra <= 0 -> find_new_rows current_google_hash gridly_sheet = None)
  /\ (0 < extra ->
      exists kept new_rows,
        find_new_rows current_google_hash gridly_sheet = Some new_rows
        /\ hashed_rows candidate = kept ++ new_rows
        /\ Z.of_nat (length new_rows) = extra).
Proof.
  intros Hget extra. rewrite (find_new_rows_drop _ _ _ Hget). split.
  - intros Hle. by rewrite decide_True by lia.
  - intros Hgt. rewrite decide_False by lia.
    exists (take (length (hashed_rows gridly_sheet)) (hashed_rows candidate)).
    eexists. split; [reflexivity|]. split.
    + by rewrite take_drop.
    + rewrite length_drop. lia.
Qed.

Lemma find_new_rows_tail_witness :
  dict_get (sheet_title base_orders) google_orders
  = Some {| sheet_title := "Orders"; reference := None;
            hashed_rows := [mkRow 0 99 ["id1"; "bar"]; mkRow 1 22 ["id2"; "x"];
                            mkRow 2 33 ["id3"; "y"]] |}
  /\ exists kept new_rows,
       find_new_rows google_orders base_orders = Some new_rows
       /\ [mkRow 0 99 ["id1"; "bar"]; mkRow 1 22 ["id2"; "x"];
           mkRow 2 33 ["id3"; "y"]] = kept ++ new_rows
       /\ Z.of_nat (length new_rows) = 1.
Proof.
  split; [reflexivity|].
  apply (find_new_rows_tail google_orders base_orders _ eq_refl).
  reflexivity.
Defined.

(** ** No-op and tail-append comparisons *)

Lemma filter_none {A : Type} (p : A -> bool) (l : list A) :
  (forall x, x ∈ l -> p x = false) -> List.filter p l = [].
Proof.
  induction l as [|x l IH]; intros H; simpl; [done|].
  rewrite (H x) by apply list_elem_of_here.
  apply IH. intros y Hy. apply H. by apply list_elem_of_further.
Qed.

Lemma unchanged_prefix_not_reported rows appended row :
  gapless (rows ++ appended) ->
  row ∈ rows ++ appended ->
  changed_at rows row = false.
Proof.
  intros Hg Hin. apply list_elem_of_lookup in Hin as [i Hi].
  pose proof (proj1 (gapless_lookup _) Hg _ _ Hi) as Hid.
  unfold changed_at. rewrite Hid, Nat2Z.id.
  destruct (decide (i < length rows)%nat) as [Hlt|Hge].
  - rewrite lookup_app_l in Hi by done. rewrite Hi.
    rewrite Z.eqb_refl. by rewrite andb_false_r.
  - rewrite lookup_ge_None_2 by lia. by rewrite andb_false_r.
Qed.

(** C4. Let the candidate stored under the table name of [S] have
    gapless positions.  If its rows are those of [S], [sheets_equal]
    returns the empty list and [find_new_rows] reports no rows (its
    result is [None], so the rows it carries are empty).  If its rows are
    those of [S] followed by a non-empty list of appended rows,
    [sheets_equal] returns the empty list and [find_new_rows] returns
    exactly the appended rows, in order. *)
Theorem noop_and_tail_append (S candidate : SheetChecksum)
    (google_sheets : pydict SheetChecksum) :
  dict_get (sheet_title S) google_sheets = Some candidate ->
  gapless (hashed_rows candidate) ->
  (hashed_rows candidate = hashed_rows S ->
   sheets_equal (sheet_title S) S google_sheets = Some []
   /\ find_new_rows google_sheets S = None
   /\ reported (find_new_rows google_sheets S) = [])
  /\ (forall appended,
        appended <> [] ->
        hashed_rows candidate = hashed_rows S ++ appended ->
        sheets_equal (sheet_title S) S google_sheets = Some []
        /\ find_new_rows google_sheets S = Some appended).
Proof.
  intros Hget Hg.
  assert (Hchanged : forall appended,
    hashed_rows candidate = hashed_rows S ++ appended ->
    sheets_equal (sheet_title S) S google_sheets = Some []).
  { intros appended Hrows.
    rewrite (sheets_equal_filter _ _ _ _ Hget). f_equal.
    rewrite Hrows in Hg |- *.
    apply filter_none. intros row Hin.
    rewrite row_differs_gapless by (exact (gapless_app_inv _ _ Hg)).
    exact (unchanged_prefix_not_reported _ _ _ Hg Hin). }
  split.
  - intros Hrows.
    assert (Hnone : find_new_rows google_sheets S = None).
    { rewrite (find_new_rows_drop _ _ _ Hget), Hrows.
      by rewrite decide_True by lia. }
    split; [|split; [done|by rewrite Hnone]].
    apply (Hchanged []). by rewrite app_nil_r.
  - intros appended Hne Hrows. split; [exact (Hchanged appended Hrows)|].
    rewrite (find_new_rows_drop _ _ _ Hget), Hrows.
    rewrite decide_False.
    + by rewrite drop_app_length.
    + rewrite length_app. destruct appended; [done|]. simpl. lia.
Qed.

Lemma noop_and_tail_append_witness :
  sheets_equal "Orders" base_orders grown_orders = Some []
  /\ find_new_rows grown_orders base_orders
     = Some [mkRow 2 33 ["id3"; "y"]; mkRow 3 44 ["id4"]].
Proof.
  assert (Hg : gapless (hashed_rows base_orders
                        ++ [mkRow 2 33 ["id3"; "y"]; mkRow 3 44 ["id4"]]))
    by (vm_compute; reflexivity).
  apply (proj2 (noop_and_tail_append base_orders _ grown_orders eq_refl Hg)
           [mkRow 2 33 ["id3"; "y"]; mkRow 3 44 ["id4"]]);
    [discriminate | reflexivity].
Defined.

(** ** Order and disjointness of the two reports *)

Lemma seq_positions_sorted (start len : nat) :
  StronglySorted Z.lt (map Z.of_nat (seq start len)).
Proof.
  revert start. induction len as [|len IH]; intros start; simpl.
  - constructor.
  - constructor; [apply IH|].
    apply List.Forall_forall. intros z Hz.
    apply in_map_iff in Hz as (i & <- & Hi). apply in_seq in Hi. lia.
Qed.

Lemma gapless_sorted rows :
  gapless rows -> StronglySorted Z.lt (positions rows).
Proof. intros ->. apply seq_positions_sorted. Qed.

Lemma sorted_positions_filter (p : RowChecksum -> bool) rows :
  StronglySorted Z.lt (positions rows) ->
  StronglySorted Z.lt (positions (List.filter p rows)).
Proof.
  unfold positions. induction rows as [|row rows IH]; simpl; [done|].
  intros Hs. apply StronglySorted_inv in Hs as [Hrest Hall].
  destruct (p row); simpl; [|by apply IH].
  constructor; [by apply IH|].
  rewrite List.Forall_forall in Hall |- *. intros z Hz. apply Hall.
  apply in_map_iff in Hz as (r & <- & Hr).
  apply filter_In in Hr as [Hr _]. by apply in_map.
Qed.

Lemma sorted_positions_drop (n : nat) rows :
  StronglySorted Z.lt (positions rows) ->
  StronglySorted Z.lt (positions (drop n rows)).
Proof.
  revert n. induction rows as [|row rows IH]; intros [|n] Hs; simpl; try done.
  apply IH. by apply StronglySorted_inv in Hs as [? _].
Qed.

Lemma dropped_rows_beyond (n : nat) rows row :
  gapless rows -> row ∈ drop n rows -> Z.of_nat n <= row_id row.
Proof.
  intros Hg Hin. apply list_elem_of_lookup in Hin as [i Hi].
  rewrite lookup_drop in Hi.
  rewrite (proj1 (gapless_lookup _) Hg _ _ Hi). lia.
Qed.

(** C7. For a baseline and a candidate with gapless positions, the rows
    reported by [sheets_equal] and the rows reported by [find_new_rows]
    are each in strictly ascending position order; no new row has a
    position that exists in the baseline, every changed row has one, and
    so no row is reported by both. *)
Theorem reports_ordered_and_disjoint (title : string)
    (baseline candidate : SheetChecksum)
    (google_sheets : pydict SheetChecksum) :
  sheet_title baseline = title ->
  dict_get title google_sheets = Some candidate ->
  gapless (hashed_rows baseline) ->
  gapless (hashed_rows candidate) ->
  let changed := reported (sheets_equal title baseline google_sheets) in
  let new_rows := reported (find_new_rows google_sheets baseline) in
  StronglySorted Z.lt (positions changed)
  /\ StronglySorted Z.lt (positions new_rows)
  /\ (forall row, row ∈ new_rows ->
                  row_id row ∉ positions (hashed_rows baseline))
  /\ (forall row, row ∈ changed ->
                  row_id row ∈ positions (hashed_rows baseline))
  /\ (forall row, row ∈ changed -> row ∉ new_rows).
Proof.
  intros Htitle Hget Hgb Hgc changed new_rows.
  assert (Hnew : forall row, row ∈ new_rows ->
            Z.of_nat (length (hashed_rows baseline)) <= row_id row).
  { intros row. unfold new_rows.
    rewrite (find_new_rows_drop _ _ candidate) by (by rewrite Htitle).
    case_decide; simpl; [by intros ?%elem_of_nil|].
    by apply dropped_rows_beyond. }
  assert (Hold : forall row, row ∈ changed ->
            0 <= row_id row < Z.of_nat (length (hashed_rows baseline))).
  { intros row. unfold changed.
    rewrite (sheets_equal_filter _ _ _ _ Hget). simpl.
    rewrite list_elem_of_In, filter_In, row_differs_gapless by done.
    intros [_ (b & Hb & <- & _)%changed_at_true]; [|done].
    by apply gapless_bound. }
  assert (Hpos : forall z, z ∈ positions (hashed_rows baseline) <->
            0 <= z < Z.of_nat (length (hashed_rows baseline))).
  { intros z. rewrite Hgb, list_elem_of_In, in_map_iff. split.
    - intros (i & <- & Hi%in_seq). lia.
    - intros Hz. exists (Z.to_nat z). split; [lia|]. apply in_seq. lia. }
  split; [|split; [|split; [|split]]].
  - unfold changed. rewrite (sheets_equal_filter _ _ _ _ Hget). simpl.
    by apply sorted_positions_filter, gapless_sorted.
  - unfold new_rows.
    rewrite (find_new_rows_drop _ _ candidate) by (by rewrite Htitle).
    case_decide; simpl; [constructor|].
    by apply sorted_positions_drop, gapless_sorted.
  - intros row Hin Hp%Hpos. apply Hnew in Hin. lia.
  - intros row Hin. apply Hpos. by apply Hold.
  - intros row Hc Hn. apply Hold in Hc. apply Hnew in Hn. lia.
Qed.

Lemma reports_ordered_and_disjoint_witness :
  reported (sheets_equal "Orders" base_orders google_orders)
  = [mkRow 0 99 ["id1"; "bar"]]
  /\ reported (find_new_rows google_orders base_orders)
     = [mkRow 2 33 ["id3"; "y"]]
  /\ forall row,
       row ∈ reported (sheets_equal "Orders" base_orders google_orders) ->
       row ∉ reported (find_new_rows google_orders base_orders).
Proof.
  split; [reflexivity|]. split; [reflexivity|].
  apply (reports_ordered_and_disjoint "Orders" base_orders _ google_orders
           eq_refl eq_refl);
    vm_compute; reflexivity.
Defined.

(** ** The checksum *)

Lemma encode_app (s1 s2 : string) :
  encode (s1 +:+ s2) = encode s1 ++ encode s2.
Proof. induction s1 as [|a s1 IH]; simpl; [done|]. by rewrite IH. Qed.

Lemma encode_join (cells : list string) :
  encode (String.concat EmptyString cells) = List.concat (map encode cells).
Proof.
  induction cells as [|c cells IH]; [done|].
  destruct cells as [|c' cells].
  - simpl. by rewrite app_nil_r.
  - change (String.concat EmptyString (c :: c' :: cells))
      with (c +:+ String.concat EmptyString (c' :: cells)).
    rewrite encode_app, IH. reflexivity.
Qed.

(** The CRC-32 of a sequence of bytes is an unsigned 32-bit integer. *)
Lemma lxor_below_2_32 (a b : Z) :
  0 <= a < 2 ^ 32 -> 0 <= b < 2 ^ 32 -> 0 <= Z.lxor a b < 2 ^ 32.
Proof.
  intros Ha Hb. split; [apply Z.lxor_nonneg; lia|].
  destruct (Z.eq_dec (Z.lxor a b) 0) as [->|Hne]; [lia|].
  assert (H0 : 0 <= Z.lxor a b) by (apply Z.lxor_nonneg; lia).
  apply Z.log2_lt_pow2; [lia|].
  eapply Z.le_lt_trans; [apply Z.log2_lxor; lia|].
  apply Z.max_lub_lt.
  - destruct (Z.eq_dec a 0) as [->|?]; [done|]. apply Z.log2_lt_pow2; lia.
  - destruct (Z.eq_dec b 0) as [->|?]; [done|]. apply Z.log2_lt_pow2; lia.
Qed.

Lemma step_range (c : Z) :
  0 <= c < 2 ^ 32 -> 0 <= Zlib.step c < 2 ^ 32.
Proof.
  intros Hc. unfold Zlib.step.
  assert (Hs : 0 <= Z.shiftr c 1 < 2 ^ 31).
  { rewrite Z.shiftr_div_pow2 by lia. change (2 ^ 1) with 2.
    split; [apply Z.div_pos; lia|]. apply Z.div_lt_upper_bound; lia. }
  destruct (Z.testbit c 0); [|lia].
  apply lxor_below_2_32; [lia|]. unfold Zlib.poly. lia.
Qed.

Lemma update_range (c b : Z) :
  0 <= c < 2 ^ 32 -> 0 <= b < 256 -> 0 <= Zlib.update c b < 2 ^ 32.
Proof.
  intros Hc Hb. unfold Zlib.update.
  assert (Hx : 0 <= Z.lxor c b < 2 ^ 32) by (apply lxor_below_2_32; lia).
  generalize dependent (Z.lxor c b). intros x Hx.
  simpl. do 8 apply step_range. exact Hx.
Qed.

Lemma fold_update_range (data : list Z) (acc : Z) :
  Forall (fun b => 0 <= b < 256) data ->
  0 <= acc < 2 ^ 32 ->
  0 <= fold_left Zlib.update data acc < 2 ^ 32.
Proof.
  intros Hdata. revert acc.
  induction Hdata as [|b data Hb Hdata IH]; intros acc Hacc; simpl; [done|].
  apply IH. by apply update_range.
Qed.

Lemma crc32_range (data : list Z) :
  Forall (fun b => 0 <= b < 256) data -> 0 <= Zlib.crc32 data < 2 ^ 32.
Proof.
  intros Hdata. unfold Zlib.crc32.
  apply lxor_below_2_32; [|unfold Zlib.mask32; lia].
  apply fold_update_range; [done|]. unfold Zlib.mask32. lia.
Qed.

Lemma encode_bytes (s : string) : Forall (fun b => 0 <= b < 256) (encode s).
Proof.
  induction s as [|a s IH]; simpl; constructor; [|done].
  unfold byte_of_ascii. pose proof (N_ascii_bounded a). lia.
Qed.

Lemma compute_row_hash_range (row_data : list string) :
  0 <= compute_row_hash row_data < 2 ^ 32.
Proof. unfold compute_row_hash. apply crc32_range, encode_bytes. Qed.

(** The check value of CRC-32 and two further known values. *)
Example crc32_check_value :
  Zlib.crc32 (encode "123456789") = 0xCBF43926
  /\ Zlib.crc32 (encode "abc") = 0x352441C2
  /\ Zlib.crc32 [] = 0.
Proof. repeat split; vm_compute; reflexivity. Qed.

(** C5. The checksum of a sequence of cells is the CRC-32 of the bytes of
    the cells put one after the other with nothing in between; it is a
    function of the cells, two sequences with the same concatenation have
    the same checksum, and ["ab","c"] and ["a","bc"] collide. *)
Theorem compute_row_hash_crc32 (cells cells' : list string) :
  String.concat EmptyString cells = String.concat EmptyString cells' ->
  compute_row_hash cells = Zlib.crc32 (List.concat (map encode cells))
  /\ compute_row_hash cells = compute_row_hash cells'
  /\ compute_row_hash ["ab"; "c"] = compute_row_hash ["a"; "bc"].
Proof.
  intros Hjoin. unfold compute_row_hash. split; [|split].
  - by rewrite encode_join.
  - by rewrite Hjoin.
  - reflexivity.
Qed.

Lemma compute_row_hash_crc32_witness :
  compute_row_hash ["ab"; "c"] = Zlib.crc32 (encode "abc")
  /\ compute_row_hash ["ab"; "c"] = compute_row_hash ["a"; "bc"].
Proof.
  destruct (compute_row_hash_crc32 ["ab"; "c"] ["a"; "bc"] eq_refl)
    as (Hcrc & Hsame & _).
  split; [exact Hcrc | exact Hsame].
Defined.

(** ** The snapshot builders *)

Lemma dict_get_set_eq {V : Type} (k : string) (v : V) (d : pydict V) :
  dict_get k (dict_set k v d) = Some v.
Proof.
  induction d as [|[k' v'] d IH]; simpl.
  - by rewrite String.eqb_refl.
  - destruct (String.eqb k k') eqn:Hk; simpl; rewrite Hk; [done|apply IH].
Qed.

Lemma dict_get_set_ne {V : Type} (k k0 : string) (v : V) (d : pydict V) :
  k0 <> k -> dict_get k0 (dict_set k v d) = dict_get k0 d.
Proof.
  intros Hne. induction d as [|[k' v'] d IH]; simpl.
  - by rewrite (proj2 (String.eqb_neq _ _) Hne).
  - destruct (String.eqb k k') eqn:Hk; simpl.
    + apply String.eqb_eq in Hk. subst k'.
      by rewrite (proj2 (String.eqb_neq _ _) Hne).
    + destruct (String.eqb k0 k'); [done|apply IH].
Qed.

Lemma all_gapless_set k sheet d :
  gapless (hashed_rows sheet) -> all_gapless d ->
  all_gapless (dict_set k sheet d).
Proof.
  intros Hs. unfold all_gapless.
  induction d as [|[k' v'] d IH]; simpl; intros Hd.
  - by constructor.
  - apply Forall_cons in Hd as [Hv Hd].
    destruct (String.eqb k k'); constructor; auto.
Qed.

Lemma hash_sheet_rows_map data :
  hash_sheet_rows data
  = map (fun ir : Z * list string =>
           mkRow (fst ir - 1) (compute_row_hash (snd ir)) (snd ir))
      (enumerate 1 (drop 1 data)).
Proof. unfold hash_sheet_rows. by rewrite fold_left_append_map. Qed.

Lemma hash_grid_records_map records :
  hash_grid_records [] records
  = map (fun ir : Z * Record_ =>
           mkRow (fst ir) (compute_row_hash (processed_rows_of (snd ir)))
             (processed_rows_of (snd ir)))
      (enumerate 0 records).
Proof. unfold hash_grid_records. by rewrite fold_left_append_map. Qed.

Lemma hash_sheet_rows_gapless data : gapless (hash_sheet_rows data).
Proof.
  unfold gapless, positions.
  rewrite hash_sheet_rows_map, length_map, enumerate_length, map_map.
  simpl. rewrite <- (map_map fst (fun i => i - 1)), enumerate_fst, map_map.
  apply map_ext. intros i. lia.
Qed.

Lemma hash_grid_records_gapless records :
  gapless (hash_grid_records [] records).
Proof.
  unfold gapless, positions.
  rewrite hash_grid_records_map, length_map, enumerate_length, map_map.
  simpl. rewrite enumerate_fst. apply map_ext. intros i. lia.
Qed.

Lemma hash_sheet_rows_content data :
  map row_content (hash_sheet_rows data) = drop 1 data.
Proof.
  rewrite hash_sheet_rows_map, map_map. simpl. apply enumerate_snd.
Qed.

(** What [process_sheet] does, by the answer of the Sheets service. *)
Lemma process_sheet_run sid title sheets_client sheet_hashes w :
  process_sheet sid title sheets_client sheet_hashes w
  = match service sheets_client sid title with
    | Return [] => (Return sheet_hashes, w)
    | Return (header :: rest) =>
        (Return (dict_set title
                   {| sheet_title := title; reference := None;
                      hashed_rows := hash_sheet_rows (header :: rest) |}
                   sheet_hashes),
         {| log := log w
                   ++ [mkLog INFO
                         (Text ("All columns of sheet with title " +:+ title
                                +:+ " were hashed"))];
            wire := wire w |})
    | Raise (HttpError what) =>
        (Return sheet_hashes,
         {| log := (log w
                    ++ [mkLog ERROR
                          (Text ("Error fetching sheet data: " +:+ what))])
                   ++ [mkLog ERROR
                         (Text ("Error processing sheet " +:+ title +:+ ": "
                                +:+ what))];
            wire := wire w |})
    | Raise e =>
        (Return sheet_hashes,
         {| log := log w
                   ++ [mkLog ERROR
                         (Text ("Error processing sheet " +:+ title +:+ ": "
                                +:+ exn_str e))];
            wire := wire w |})
    end.
Proof.
  unfold process_sheet, try_except, get_sheet_data.
  destruct (service sheets_client sid title) as [[|header rest]|[what|key| |msg]];
    reflexivity.
Qed.

(** What [process_gridly_grid] returns: the dictionary as it was, or the
    dictionary with the snapshot of the fetched records stored under the
    grid name. *)
Lemma process_gridly_grid_run grid gridly_sheets client w :
  exists w',
    process_gridly_grid grid gridly_sheets client w = (Return gridly_sheets, w')
    \/ exists view records,
         process_gridly_grid grid gridly_sheets client w
         = (Return (dict_set (grid_name grid)
                      {| sheet_title := grid_name grid;
                         reference := Some (view_id view);
                         hashed_rows := hash_grid_records [] records |}
                      gridly_sheets), w').
Proof.
  unfold process_gridly_grid, try_except, fetch_grid_view,
    fetch_records_for_view, execute_api_request, mbind, M_bind, send, raise.
  simpl.
  destruct (get_views client _) as [[|view views]|]; simpl;
    try (eexists; left; reflexivity).
  destruct (get_records client _) as [records|]; simpl;
    try (eexists; left; reflexivity).
  eexists. right. exists view, records. reflexivity.
Qed.

(** C6. Both builders number the rows 0, 1, ..., len(rows)-1 in order:
    the rows built from sheet data (header skipped) and the rows built
    from Gridly records have gapless positions, and a dictionary whose
    snapshots all have gapless positions keeps that property through
    [process_sheet] and through [process_gridly_grid], neither of which
    raises. *)
Theorem builders_positions_gapless (sid title : string)
    (sheets_client : SheetsClient) (grid : Grid) (client : GridlyClient)
    (sheet_hashes gridly_sheets : pydict SheetChecksum) (w : World) :
  all_gapless sheet_hashes ->
  all_gapless gridly_sheets ->
  (forall data,
     positions (hash_sheet_rows data)
     = map Z.of_nat (seq 0 (length data - 1)))
  /\ (forall records,
        positions (hash_grid_records [] records)
        = map Z.of_nat (seq 0 (length records)))
  /\ (exists sheet_hashes' w',
        process_sheet sid title sheets_client sheet_hashes w
        = (Return sheet_hashes', w')
        /\ all_gapless sheet_hashes')
  /\ (exists gridly_sheets' w',
        process_gridly_grid grid gridly_sheets client w
        = (Return gridly_sheets', w')
        /\ all_gapless gridly_sheets').
Proof.
  intros Hs Hg. split; [|split; [|split]].
  - intros data. rewrite (hash_sheet_rows_gapless data).
    rewrite hash_sheet_rows_map, length_map, enumerate_length, length_drop.
    reflexivity.
  - intros records. rewrite (hash_grid_records_gapless records).
    by rewrite hash_grid_records_map, length_map, enumerate_length.
  - rewrite process_sheet_run.
    destruct (service sheets_client sid title)
      as [[|header rest]|[what|key| |msg]];
      do 2 eexists; (split; [reflexivity|]); try done.
    apply all_gapless_set; [|done]. apply hash_sheet_rows_gapless.
  - destruct (process_gridly_grid_run grid gridly_sheets client w)
      as [w' [Hrun|(view & records & Hrun)]];
      rewrite Hrun; do 2 eexists; (split; [reflexivity|]); [done|].
    apply all_gapless_set; [|done]. apply hash_grid_records_gapless.
Qed.

Lemma builders_positions_gapless_witness :
  positions (hash_sheet_rows [["id"; "name"]; ["id1"; "foo"]; ["id2"; "x"]])
  = [0; 1]
  /\ exists sheet_hashes' w',
       process_sheet "sid" "Orders" orders_client [] empty_world
       = (Return sheet_hashes', w')
       /\ all_gapless sheet_hashes'.
Proof.
  assert (Hnil : all_gapless []) by constructor.
  destruct (builders_positions_gapless "sid" "Orders" orders_client
              (mkGrid "g1" "Orders") orders_gridly [] [] empty_world
              Hnil Hnil) as (Hrows & _ & Hsheet & _).
  split; [apply Hrows | exact Hsheet].
Defined.

(** ** Grids without data rows *)

(** C8, as stated, fails: for a grid with no rows at all [process_sheet]
    returns before storing anything, so no snapshot exists for the
    table. *)
Lemma empty_grid_yields_no_snapshot :
  ~ (forall data : list (list string),
       (length data <= 1)%nat ->
       exists sheet_hashes' w' sheet,
         process_sheet "sid" "Orders" (mkSheets (fun _ _ => Return data))
           [] empty_world
         = (Return sheet_hashes', w')
         /\ dict_get "Orders" sheet_hashes' = Some sheet
         /\ hashed_rows sheet = []).
Proof.
  intros H.
  destruct (H [] (Nat.le_0_l 1)) as (hashes & w' & sheet & Hrun & Hget & _).
  rewrite process_sheet_run in Hrun. simpl in Hrun.
  inversion Hrun; subst hashes. discriminate Hget.
Qed.

(** C8, amended. For a grid that consists of a header row only,
    [process_sheet] returns normally, logs no error, and stores under the
    title a snapshot whose rows are empty.  For a grid with no rows at all
    it also returns normally, but leaves the dictionary and the log as
    they were: no snapshot is stored for the table. *)
Theorem process_sheet_without_data_rows (sid title : string)
    (sheets_client : SheetsClient) (sheet_hashes : pydict SheetChecksum)
    (w : World) :
  (forall header,
     service sheets_client sid title = Return [header] ->
     exists sheet_hashes' w',
       process_sheet sid title sheets_client sheet_hashes w
       = (Return sheet_hashes', w')
       /\ dict_get title sheet_hashes'
          = Some {| sheet_title := title; reference := None;
                    hashed_rows := [] |}
       /\ Forall (fun r => level r = INFO) (drop (length (log w)) (log w')))
  /\ (service sheets_client sid title = Return [] ->
      process_sheet sid title sheets_client sheet_hashes w
      = (Return sheet_hashes, w)).
Proof.
  split.
  - intros header Hdata. rewrite process_sheet_run, Hdata.
    do 2 eexists. split; [reflexivity|]. split.
    + apply dict_get_set_eq.
    + simpl. rewrite drop_app_length. by repeat constructor.
  - intros Hdata. by rewrite process_sheet_run, Hdata.
Qed.

Lemma process_sheet_without_data_rows_witness :
  exists sheet_hashes' w',
    process_sheet "sid" "Orders" (mkSheets (fun _ _ => Return [["id"; "name"]]))
      [] empty_world
    = (Return sheet_hashes', w')
    /\ dict_get "Orders" sheet_hashes'
       = Some {| sheet_title := "Orders"; reference := None;
                 hashed_rows := [] |}
    /\ Forall (fun r => level r = INFO)
         (drop (length (log empty_world)) (log w')).
Proof.
  apply (proj1 (process_sheet_without_data_rows "sid" "Orders"
                  (mkSheets (fun _ _ => Return [["id"; "name"]]))
                  [] empty_world) ["id"; "name"]).
  reflexivity.
Defined.

(** ** The bootstrap status line *)

Lemma for_each_log {A : Type} (items : list A) (line : A -> LogMessage)
    (w : World) :
  for_each items (fun _ item => logging_info (line item)) tt w
  = (Return tt,
     {| log := log w ++ map (fun item => mkLog INFO (line item)) items;
        wire := wire w |}).
Proof.
  revert w. induction items as [|item items IH]; intros w; simpl.
  - unfold mret, M_ret. rewrite app_nil_r. by destruct w.
  - unfold mbind, M_bind, logging_info at 1. rewrite IH. simpl.
    by rewrite <- app_assoc.
Qed.

(** C9. The status word of the bootstrap comparison is "fully matches"
    exactly when [sheets_equal] returned a non-empty list of changed rows,
    and "does not match" exactly when it returned the empty list or
    [None]; the comparison loop logs, for every item of the Gridly
    dictionary in order, one INFO line carrying the title and that status
    word, and nothing else. *)
Theorem initial_status_inverted (gridly_sheets init_sheet_hash
                                 : pydict SheetChecksum) (w : World) :
  (forall rows,
     (initial_status rows = "fully matches" <->
      exists row rest, rows = Some (row :: rest))
     /\ (initial_status rows = "does not match" <->
         rows = Some [] \/ rows = None))
  /\ initial_comparison gridly_sheets init_sheet_hash w
     = (Return tt,
        {| log :=
             log w
             ++ map (fun item : string * SheetChecksum =>
                       mkLog INFO
                         (Text ("GRIDLY Sheet <" +:+ fst item +:+ "> <"
                                +:+ initial_status
                                      (sheets_equal (fst item) (snd item)
                                         init_sheet_hash)
                                +:+ "> the initial Google Sheet")))
                  gridly_sheets;
           wire := wire w |}).
Proof.
  split.
  - intros [[|row rest]|]; unfold initial_status; simpl; split; split;
      try done; try (intros (? & ? & ?); done); try (intros [?|?]; done);
      eauto.
  - unfold initial_comparison, dict_items, initial_status_line.
    apply (for_each_log gridly_sheets
             (fun item => Text ("GRIDLY Sheet <" +:+ fst item +:+ "> <"
                                +:+ initial_status
                                      (sheets_equal (fst item) (snd item)
                                         init_sheet_hash)
                                +:+ "> the initial Google Sheet"))).
Qed.

(** The status lines for a table whose first row differs and for a table
    that is identical on both sides. *)
Example initial_status_example :
  initial_status_line "Orders" base_orders google_orders
  = Text "GRIDLY Sheet <Orders> <fully matches> the initial Google Sheet"
  /\ initial_status_line "Orders" base_orders [("Orders", base_orders)]
     = Text "GRIDLY Sheet <Orders> <does not match> the initial Google Sheet".
Proof. split; reflexivity. Qed.

(** ** Records pushed to Gridly *)

Lemma cells_of_values_value column_values :
  map value (cells_of_values column_values) = column_values.
Proof.
  unfold cells_of_values. rewrite map_map. simpl. apply enumerate_snd.
Qed.

Lemma cells_of_values_columnId column_values :
  map columnId (cells_of_values column_values)
  = column_names (length column_values).
Proof.
  unfold cells_of_values, column_names. rewrite map_map. simpl.
  rewrite <- (map_map fst (fun i => "column" +:+ str_of_int (i + 1))).
  rewrite enumerate_fst, map_map, <- seq_shift, map_map.
  apply map_ext. intros i. do 2 f_equal. lia.
Qed.

Lemma record_of_row_run row w :
  record_of_row row w
  = match row_content row with
    | [] => (Raise IndexError, w)
    | record_id :: column_values =>
        (Return {| id := record_id; cells := cells_of_values column_values |},
         w)
    end.
Proof. unfold record_of_row. by destruct (row_content row). Qed.

Lemma record_of_row_matches row record w w' :
  record_of_row row w = (Return record, w') ->
  w' = w /\ record_matches_row row record.
Proof.
  rewrite record_of_row_run.
  destruct (row_content row) as [|record_id column_values] eqn:Hc; [done|].
  intros [= <- <-]. split; [done|].
  exists column_values. simpl.
  by rewrite cells_of_values_value, cells_of_values_columnId.
Qed.

Lemma record_of_row_raises row e w w' :
  record_of_row row w = (Raise e, w') -> w' = w /\ e = IndexError.
Proof.
  rewrite record_of_row_run. destruct (row_content row); [|done].
  by intros [= <- <-].
Qed.

Lemma update_one_row_run self view row w :
  (update_one_row self view tt row w = (Raise IndexError, w))
  \/ exists record,
       record_matches_row row record
       /\ wire (snd (update_one_row self view tt row w))
          = wire w ++ [patch_request view record]
       /\ (fst (update_one_row self view tt row w) = Return tt
           \/ exists e, fst (update_one_row self view tt row w) = Raise e).
Proof.
  unfold update_one_row, mbind, M_bind. rewrite record_of_row_run.
  destruct (row_content row) as [|record_id column_values] eqn:Hc.
  - by left.
  - right. exists {| id := record_id; cells := cells_of_values column_values |}.
    split.
    + exists column_values. simpl.
      by rewrite Hc, cells_of_values_value, cells_of_values_columnId.
    + unfold execute_api_request, send, mbind, M_bind, patch_request.
      cbv zeta.
      match goal with
      | |- context [write_ok self ?r] => destruct (write_ok self r)
      end; simpl; split; eauto.
Qed.

Lemma update_gridly_row_wire self view rows w :
  exists pushed requests,
    wire (snd (update_gridly_row self view rows w)) = wire w ++ requests
    /\ pushed `prefix_of` rows
    /\ Forall2 (patch_of_row view) pushed requests.
Proof.
  unfold update_gridly_row. revert w.
  induction rows as [|row rows IH]; intros w.
  - exists [], []. simpl. rewrite app_nil_r.
    split; [done|]. split; [apply prefix_nil|constructor].
  - simpl. unfold mbind at 1, M_bind at 1.
    destruct (update_one_row_run self view row w)
      as [Hraise|(record & Hmatch & Hwire & Hres)].
    + rewrite Hraise. exists [], []. simpl. rewrite app_nil_r.
      split; [done|]. split; [apply prefix_nil|constructor].
    + destruct (update_one_row self view tt row w) as [[[]|e] w1];
        simpl in Hwire.
      * destruct (IH w1) as (pushed & requests & Hw & Hpre & Hall).
        exists (row :: pushed), (patch_request view record :: requests).
        split; [|split].
        -- rewrite Hw, Hwire. by rewrite <- app_assoc.
        -- by apply prefix_cons.
        -- constructor; [|done]. by exists record.
      * exists [row], [patch_request view record].
        split; [done|]. split; [apply prefix_cons, prefix_nil|].
        constructor; [|constructor]. by exists record.
Qed.

Lemma build_records_step row rows acc w :
  for_each (row :: rows) append_record acc w
  = match row_content row with
    | [] => (Raise IndexError, w)
    | record_id :: column_values =>
        for_each rows append_record
          (acc ++ [{| id := record_id;
                      cells := cells_of_values column_values |}]) w
    end.
Proof.
  simpl. unfold mbind, M_bind, append_record, mbind, M_bind.
  rewrite record_of_row_run. by destruct (row_content row).
Qed.

Lemma build_records_run rows acc w :
  (exists records,
     for_each rows append_record acc w = (Return (acc ++ records), w)
     /\ Forall2 record_matches_row rows records)
  \/ for_each rows append_record acc w = (Raise IndexError, w).
Proof.
  revert acc. induction rows as [|row rows IH]; intros acc.
  - left. exists []. simpl. rewrite app_nil_r. split; [done|constructor].
  - rewrite build_records_step.
    destruct (row_content row) as [|record_id column_values] eqn:Hc;
      [by right|].
    destruct (IH (acc ++ [{| id := record_id;
                             cells := cells_of_values column_values |}]))
      as [(records & Hrun & Hall)|Hraise]; [|by right].
    left. eexists (_ :: records). rewrite Hrun.
    split; [by rewrite <- app_assoc|].
    constructor; [|done]. exists column_values. simpl.
    by rewrite Hc, cells_of_values_value, cells_of_values_columnId.
Qed.

Lemma add_rows_to_gridly_wire self view new_rows w :
  (fst (add_rows_to_gridly self view new_rows w) = Raise IndexError
   /\ wire (snd (add_rows_to_gridly self view new_rows w)) = wire w)
  \/ exists records,
       Forall2 record_matches_row new_rows records
       /\ wire (snd (add_rows_to_gridly self view new_rows w))
          = wire w
            ++ [{| method := "POST";
                   url := base_url +:+ ("/views/" +:+ fmt_ref view
                                        +:+ "/records");
                   body := RecordsBody records |}].
Proof.
  unfold add_rows_to_gridly, mbind, M_bind.
  destruct (build_records_run new_rows [] w)
    as [(records & Hrun & Hall)|Hraise].
  - right. exists records. split; [done|]. rewrite Hrun. simpl.
    unfold execute_api_request, send, mbind, M_bind. cbv zeta.
    match goal with
    | |- context [write_ok self ?r] => destruct (write_ok self r)
    end; reflexivity.
  - left. by rewrite Hraise.
Qed.

Lemma hash_grid_records_content records :
  Forall2 (fun record row =>
             row_content row = id record :: map value (cells record))
    records (hash_grid_records [] records).
Proof.
  rewrite hash_grid_records_map. generalize 0.
  induction records as [|record records IH]; intros start; simpl;
    constructor; [reflexivity|apply IH].
Qed.

(** C10. Every request sent by [update_gridly_row] and the request sent
    by [add_rows_to_gridly] carry, for each row pushed, a record whose id
    is [row_content[0]] and whose cells hold [row_content[1:]] in order
    under the column ids "column1", "column2", ..., so the identifier
    cell is not among the column values.  On the destination side every
    snapshot row has the fetched record's id at index 0, followed by the
    record's cell values; reading back a pushed record gives the row
    content it was built from. *)
Theorem pushed_records_keyed_by_first_cell (self : GridlyClient)
    (view : option string) (rows : list RowChecksum) (w : World) :
  (exists pushed requests,
     wire (snd (update_gridly_row self view rows w)) = wire w ++ requests
     /\ pushed `prefix_of` rows
     /\ Forall2 (patch_of_row view) pushed requests)
  /\ ((fst (add_rows_to_gridly self view rows w) = Raise IndexError
       /\ wire (snd (add_rows_to_gridly self view rows w)) = wire w)
      \/ exists records,
           Forall2 record_matches_row rows records
           /\ wire (snd (add_rows_to_gridly self view rows w))
              = wire w
                ++ [{| method := "POST";
                       url := base_url +:+ ("/views/" +:+ fmt_ref view
                                            +:+ "/records");
                       body := RecordsBody records |}])
  /\ (forall records,
        Forall2 (fun record row =>
                   row_content row = id record :: map value (cells record))
          records (hash_grid_records [] records))
  /\ (forall row record,
        record_matches_row row record ->
        processed_rows_of record = row_content row).
Proof.
  split; [apply update_gridly_row_wire|].
  split; [apply add_rows_to_gridly_wire|].
  split; [apply hash_grid_records_content|].
  intros row record (column_values & Hc & Hv & _).
  unfold processed_rows_of. simpl. by rewrite Hv, Hc.
Qed.

(** The requests for two rows, one changed and one new. *)
Example pushed_records_example :
  wire (snd (update_gridly_row orders_gridly (Some "view1")
               [mkRow 0 99 ["id1"; "bar"; "baz"]] empty_world))
  = [{| method := "PATCH";
        url := "https://api.gridly.com/v1/views/view1/records/id1";
        body := RecordBody
                  {| id := "id1";
                     cells := [mkCell "column1" "bar";
                               mkCell "column2" "baz"] |} |}]
  /\ wire (snd (add_rows_to_gridly orders_gridly (Some "view1")
                  [mkRow 2 33 ["id3"; "y"]] empty_world))
     = [{| method := "POST";
           url := "https://api.gridly.com/v1/views/view1/records";
           body := RecordsBody
                     [{| id := "id3";
                         cells := [mkCell "column1" "y"] |}] |}].
Proof. split; vm_compute; reflexivity. Qed.

(** ** A failed read during a cycle *)

Lemma bind_returns {A B : Type} (m : M A) (f : A -> M B) w b w' :
  (m ≫= f) w = (Return b, w') ->
  exists a w1, m w = (Return a, w1) /\ f a w1 = (Return b, w').
Proof.
  unfold mbind, M_bind. destruct (m w) as [[a|e] w1]; [|done].
  intros H. by exists a, w1.
Qed.

Lemma dict_get_elem_of {V : Type} (k : string) (v : V) (d : pydict V) :
  dict_get k d = Some v -> (k, v) ∈ d.
Proof.
  induction d as [|[k' v'] d IH]; simpl; [done|].
  destruct (String.eqb k k') eqn:Hk.
  - apply String.eqb_eq in Hk as ->. intros [= ->]. apply list_elem_of_here.
  - intros H. apply list_elem_of_further. by apply IH.
Qed.

(** A title whose read raises is absent from the freshly built
    dictionary. *)
Lemma process_sheet_keeps_missing sid name title sheets_client hashes w e :
  service sheets_client sid title = Raise e ->
  dict_get title hashes = None ->
  exists hashes' w',
    process_sheet sid name sheets_client hashes w = (Return hashes', w')
    /\ dict_get title hashes' = None.
Proof.
  intros Hfail Hnone. rewrite process_sheet_run.
  destruct (decide (name = title)) as [->|Hne].
  - rewrite Hfail. destruct e; by do 2 eexists.
  - destruct (service sheets_client sid name)
      as [[|header rest]|[what|key| |msg]];
      do 2 eexists; (split; [reflexivity|]); try done.
    by rewrite dict_get_set_ne.
Qed.

Lemma read_all_sheets_missing sid sheet_names title sheets_client w e :
  service sheets_client sid title = Raise e ->
  exists hashes w',
    read_all_sheets sid sheet_names sheets_client w = (Return hashes, w')
    /\ dict_get title hashes = None.
Proof.
  intros Hfail. unfold read_all_sheets.
  assert (Hnone : dict_get title ([] : pydict SheetChecksum) = None) by done.
  revert Hnone. generalize ([] : pydict SheetChecksum). revert w.
  induction sheet_names as [|name names IH]; intros w hashes Hnone; simpl.
  - by exists hashes, w.
  - destruct (process_sheet_keeps_missing sid name title sheets_client
                hashes w e Hfail Hnone) as (hashes1 & w1 & Hrun & Hnone1).
    unfold mbind, M_bind. rewrite Hrun. by apply IH.
Qed.

(** A pass over one item either raises or keeps the keys of
    [current_google_hash]. *)
Lemma sync_sheet_keeps_missing gridly_client state item w state' w' title :
  sync_sheet gridly_client state item w = (Return state', w') ->
  dict_get title (fst state) = None ->
  dict_get title (fst state') = None.
Proof.
  unfold sync_sheet, dict_getitem. intros Hrun Hnone.
  destruct (dict_get (fst item) (fst state)) as [google_sheet|] eqn:Hget.
  - apply bind_returns in Hrun as (? & ? & _ & Hrun).
    apply bind_returns in Hrun as (? & ? & _ & Hrun).
    apply bind_returns in Hrun as (? & ? & _ & Hrun).
    apply bind_returns in Hrun as (? & ? & _ & Hrun).
    injection Hrun as <- _. simpl.
    rewrite dict_get_set_ne; [done|]. intros ->. congruence.
  - apply bind_returns in Hrun as (? & ? & Hraise & _). done.
Qed.

Lemma sync_loop_raises gridly_client items state w title sheet :
  (title, sheet) ∈ items ->
  dict_get title (fst state) = None ->
  exists e w', for_each items (sync_sheet gridly_client) state w = (Raise e, w').
Proof.
  revert state w. induction items as [|item items IH]; intros state w Hin Hnone.
  - by apply elem_of_nil in Hin.
  - simpl. unfold mbind, M_bind.
    destruct (sync_sheet gridly_client state item w) as [[state'|e] w1] eqn:Hrun;
      [|by exists e, w1].
    apply elem_of_cons in Hin as [<-|Hin].
    + exfalso. unfold sync_sheet, dict_getitem in Hrun. simpl in Hrun.
      rewrite Hnone in Hrun.
      apply bind_returns in Hrun as (? & ? & Hraise & _). done.
    + apply IH; [done|].
      by eapply sync_sheet_keeps_missing.
Qed.

(** C3 (what the code does instead). When the read of a table that is
    present on the destination side raises during a pass, [process_sheet]
    catches and logs it, but the pass itself then ends with an exception:
    [sync_cycle] does not return, so no destination state remains for a
    next pass. *)
Theorem failed_read_ends_cycle (sid : string) (sheet_names : list string)
    (sheets_client : SheetsClient) (gridly_client : GridlyClient)
    (gridly_sheets : pydict SheetChecksum) (title : string)
    (sheet : SheetChecksum) (e : exn) (w : World) :
  service sheets_client sid title = Raise e ->
  dict_get title gridly_sheets = Some sheet ->
  exists e' w',
    sync_cycle sid sheet_names sheets_client gridly_client gridly_sheets w
    = (Raise e', w').
Proof.
  intros Hfail Hget. unfold sync_cycle.
  unfold mbind at 1, M_bind at 1, logging_info at 1.
  unfold mbind at 1, M_bind at 1.
  match goal with
  | |- context [read_all_sheets sid sheet_names sheets_client ?w0] =>
      destruct (read_all_sheets_missing sid sheet_names title sheets_client
                  w0 e Hfail) as (hashes & w1 & Hread & Hnone)
  end.
  rewrite Hread.
  destruct (sync_loop_raises gridly_client (dict_items gridly_sheets)
              (hashes, gridly_sheets) w1 title sheet) as (e' & w' & Hloop).
  - by apply dict_get_elem_of.
  - done.
  - exists e', w'. unfold mbind, M_bind. by rewrite Hloop.
Qed.

Lemma failed_read_ends_cycle_witness :
  exists e' w',
    sync_cycle "sid" ["Orders"; "Stock"] orders_read_fails two_tables_gridly
      two_tables_state empty_world
    = (Raise e', w').
Proof.
  apply (failed_read_ends_cycle "sid" ["Orders"; "Stock"] orders_read_fails
           two_tables_gridly two_tables_state "Orders"
           {| sheet_title := "Orders"; reference := Some "view1";
              hashed_rows := [mkRow 0 866313408 ["id1"; "bar"]] |}
           (HttpError "503"));
    reflexivity.
Defined.

(** The whole run on that input: the bootstrap succeeds, the first pass
    dies with [KeyError] on "Orders", nothing is written to Gridly (the
    changed row of "Stock" is never pushed), the second pass never starts,
    and the last log line is the fatal one. *)
Example failed_read_is_fatal :
  let run := main "sid" "db" "Orders,Stock" two_tables_start
               [orders_read_fails; two_tables_start] two_tables_gridly
               empty_world in
  fst run = Raise (KeyError "Orders")
  /\ List.filter (fun r => negb (String.eqb (method r) "GET")) (wire (snd run))
     = []
  /\ last (log (snd run))
     = Some (mkLog ERROR (Text "Fatal error in main loop: 'Orders'"))
  /\ length (List.filter
               (fun r =>
                  match message r with
                  | Text "Starting a new Gridly synchronization check..." =>
                      true
                  | _ => false
                  end)
               (log (snd run))) = 1%nat.
Proof. vm_compute. repeat split. Qed.

(** * Further properties of the code *)

(** ** The list of sheet names *)

Lemma string_app_cons (a : ascii) (s t : string) :
  String a s +:+ t = String a (s +:+ t).
Proof. reflexivity. Qed.

Lemma string_app_assoc (s1 s2 s3 : string) :
  (s1 +:+ s2) +:+ s3 = s1 +:+ (s2 +:+ s3).
Proof.
  induction s1 as [|a s1 IH]; [done|].
  by rewrite !string_app_cons, IH.
Qed.

Lemma string_app_nil_r (s : string) : s +:+ EmptyString = s.
Proof.
  induction s as [|a s IH]; [done|]. by rewrite string_app_cons, IH.
Qed.

Lemma list_ascii_app (s1 s2 : string) :
  list_ascii_of_string (s1 +:+ s2)
  = list_ascii_of_string s1 ++ list_ascii_of_string s2.
Proof.
  induction s1 as [|a s1 IH]; [done|].
  rewrite string_app_cons. simpl. by rewrite IH.
Qed.

Lemma split_comma_go_nonempty cur s : split_comma_go cur s <> [].
Proof.
  revert cur. induction s as [|a s IH]; intros cur; simpl; [done|].
  destruct (Ascii.eqb a ","); [done|apply IH].
Qed.

Lemma concat_cons_nonempty sep x (l : list string) :
  l <> [] -> String.concat sep (x :: l) = x +:+ sep +:+ String.concat sep l.
Proof. by destruct l. Qed.

Lemma split_comma_go_join cur s :
  String.concat "," (split_comma_go cur s) = cur +:+ s.
Proof.
  revert cur. induction s as [|a s IH]; intros cur; simpl split_comma_go.
  - simpl. by rewrite string_app_nil_r.
  - destruct (Ascii.eqb a ",") eqn:Ha.
    + apply Ascii.eqb_eq in Ha as ->.
      rewrite concat_cons_nonempty by apply split_comma_go_nonempty.
      by rewrite IH.
    + rewrite IH, string_app_assoc. reflexivity.
Qed.

Lemma split_comma_go_pieces cur s :
  ~ In ","%char (list_ascii_of_string cur) ->
  Forall (fun piece => ~ In ","%char (list_ascii_of_string piece))
    (split_comma_go cur s).
Proof.
  revert cur. induction s as [|a s IH]; intros cur Hcur; simpl.
  - by constructor.
  - destruct (Ascii.eqb a ",") eqn:Ha.
    + constructor; [done|]. apply IH. simpl. tauto.
    + apply IH. rewrite list_ascii_app, in_app_iff. simpl.
      apply Ascii.eqb_neq in Ha. intros [?|[?|[]]]; [tauto|congruence].
Qed.

(** X1. Splitting the configured names at the commas loses nothing:
    joining the pieces with commas gives the configured string back, there
    is always at least one piece (one empty name for the empty string),
    and no piece contains a comma. *)
Theorem split_comma_round_trip (s : string) :
  String.concat "," (split_comma s) = s
  /\ split_comma s <> []
  /\ Forall (fun piece => ~ In ","%char (list_ascii_of_string piece))
       (split_comma s).
Proof.
  unfold split_comma. split; [|split].
  - by rewrite split_comma_go_join.
  - apply split_comma_go_nonempty.
  - apply split_comma_go_pieces. simpl. tauto.
Qed.

(** ** Rows built by the snapshot builders *)

Lemma hash_grid_records_rows records :
  map row_content (hash_grid_records [] records)
  = map processed_rows_of records.
Proof.
  rewrite hash_grid_records_map, map_map. simpl.
  rewrite <- (map_map snd processed_rows_of). by rewrite enumerate_snd.
Qed.

(** X2. The rows of a sheet snapshot are the data rows of the grid in
    order, the header left out and ragged rows kept as they are; the rows
    of a Gridly snapshot are the record id followed by the cell values.
    Every row carries the checksum of its own content, an unsigned 32-bit
    integer. *)
Theorem built_rows_checksummed (data : list (list string))
    (records : list Record_) :
  map row_content (hash_sheet_rows data) = drop 1 data
  /\ map row_content (hash_grid_records [] records)
     = map (fun record => id record :: map value (cells record)) records
  /\ Forall (fun row =>
               row_checksum row = compute_row_hash (row_content row)
               /\ 0 <= row_checksum row < 2 ^ 32)
       (hash_sheet_rows data ++ hash_grid_records [] records).
Proof.
  split; [apply hash_sheet_rows_content|].
  split; [apply hash_grid_records_rows|].
  apply Forall_app. split.
  - rewrite hash_sheet_rows_map. apply Forall_map, Forall_forall.
    intros ir _. simpl. split; [done|apply compute_row_hash_range].
  - rewrite hash_grid_records_map. apply Forall_map, Forall_forall.
    intros ir _. simpl. split; [done|apply compute_row_hash_range].
Qed.

(** ** Completeness of the two reports *)

Lemma own_row_unchanged baseline row :
  gapless baseline -> row ∈ baseline -> changed_at baseline row = false.
Proof.
  intros Hg Hin.
  apply (unchanged_prefix_not_reported baseline [] row);
    by rewrite app_nil_r.
Qed.

Lemma changed_at_position baseline row (i : nat) :
  row_id row = Z.of_nat i ->
  changed_at baseline row
  = match baseline !! i with
    | Some b => negb (row_checksum b =? row_checksum row)%Z
    | None => false
    end.
Proof.
  intros Hid. unfold changed_at. rewrite Hid, Nat2Z.id.
  by rewrite (proj2 (Z.leb_le 0 (Z.of_nat i))) by lia.
Qed.

(** X3. If the candidate equals a gapless baseline except for the row at
    one position, [sheets_equal] returns exactly that candidate row, and
    returns the empty list when the replaced row happens to have the same
    checksum as the row it replaces. *)
Theorem single_change_isolated (title : string)
    (baseline candidate : SheetChecksum)
    (google_sheets : pydict SheetChecksum)
    (before after : list RowChecksum) (row row' : RowChecksum) :
  dict_get title google_sheets = Some candidate ->
  hashed_rows baseline = before ++ row :: after ->
  hashed_rows candidate = before ++ row' :: after ->
  gapless (hashed_rows baseline) ->
  row_id row' = row_id row ->
  sheets_equal title baseline google_sheets
  = Some (if decide (row_checksum row' = row_checksum row)
          then [] else [row']).
Proof.
  intros Hget Hb Hc Hg Hid.
  rewrite (sheets_equal_filter _ _ _ _ Hget), Hc. f_equal.
  rewrite (filter_ext _ _ (fun r => row_differs_gapless _ r Hg)).
  rewrite List.filter_app. simpl.
  assert (Hrow : row_id row = Z.of_nat (length before)).
  { apply (proj1 (gapless_lookup _) Hg). rewrite Hb.
    rewrite lookup_app_r by lia. by rewrite Nat.sub_diag. }
  rewrite (filter_none _ before), (filter_none _ after).
  - rewrite (changed_at_position _ row' (length before)) by congruence.
    rewrite Hb, lookup_app_r by lia. rewrite Nat.sub_diag. simpl.
    case_decide as Heq.
    + by rewrite Heq, Z.eqb_refl.
    + rewrite (proj2 (Z.eqb_neq _ _)) by congruence. done.
  - intros r Hr. apply own_row_unchanged; [done|].
    rewrite Hb. apply elem_of_app. right. by apply list_elem_of_further.
  - intros r Hr. apply own_row_unchanged; [done|].
    rewrite Hb. apply elem_of_app. by left.
Qed.

Lemma single_change_isolated_witness :
  sheets_equal "Orders" base_orders [("Orders", second_row_changed)]
  = Some [mkRow 1 77 ["id2"; "z"]].
Proof.
  apply (single_change_isolated "Orders" base_orders second_row_changed
           [("Orders", second_row_changed)]
           [mkRow 0 11 ["id1"; "foo"]] [] (mkRow 1 22 ["id2"; "x"])
           (mkRow 1 77 ["id2"; "z"]) eq_refl eq_refl eq_refl);
    [vm_compute; reflexivity | reflexivity].
Defined.

(** X4. With gapless positions on both sides every candidate row is
    accounted for.  A row at a position that the baseline has is reported
    by [sheets_equal] exactly when its checksum differs from the
    baseline's there, and is never reported as new; a row at a position
    beyond the baseline is reported by [find_new_rows] and never by
    [sheets_equal]. *)
Theorem diff_accounts_for_every_row (title : string)
    (baseline candidate : SheetChecksum)
    (google_sheets : pydict SheetChecksum) (i : nat) (c : RowChecksum) :
  sheet_title baseline = title ->
  dict_get title google_sheets = Some candidate ->
  gapless (hashed_rows baseline) ->
  gapless (hashed_rows candidate) ->
  hashed_rows candidate !! i = Some c ->
  match hashed_rows baseline !! i with
  | Some b =>
      (c ∈ reported (sheets_equal title baseline google_sheets)
       <-> row_checksum c <> row_checksum b)
      /\ c ∉ reported (find_new_rows google_sheets baseline)
  | None =>
      c ∈ reported (find_new_rows google_sheets baseline)
      /\ c ∉ reported (sheets_equal title baseline google_sheets)
  end.
Proof.
  intros Htitle Hget Hgb Hgc Hi.
  pose proof (proj1 (gapless_lookup _) Hgc _ _ Hi) as Hid.
  assert (Hin : c ∈ hashed_rows candidate) by (by eapply list_elem_of_lookup_2).
  assert (Hchanged :
    c ∈ reported (sheets_equal title baseline google_sheets)
    <-> changed_at (hashed_rows baseline) c = true).
  { rewrite (sheets_equal_filter _ _ _ _ Hget). simpl.
    rewrite (filter_ext _ _ (fun r => row_differs_gapless _ r Hgb)).
    rewrite list_elem_of_In, filter_In, <- list_elem_of_In. tauto. }
  rewrite (changed_at_position _ c i Hid) in Hchanged.
  rewrite (find_new_rows_drop _ _ candidate) by (by rewrite Htitle).
  destruct (hashed_rows baseline !! i) as [b|] eqn:Hb.
  - split.
    + rewrite Hchanged, negb_true_iff, Z.eqb_neq. split; congruence.
    + apply lookup_lt_Some in Hb.
      case_decide; simpl; [apply not_elem_of_nil|].
      intros Hnew%(dropped_rows_beyond _ _ _ Hgc). lia.
  - apply lookup_ge_None in Hb. apply lookup_lt_Some in Hi as Hlt.
    split.
    + rewrite decide_False by lia. simpl.
      apply list_elem_of_lookup.
      exists (i - length (hashed_rows baseline))%nat.
      rewrite lookup_drop. rewrite <- Hi. f_equal. lia.
    + rewrite Hchanged. done.
Qed.

Lemma diff_accounts_for_every_row_witness :
  (mkRow 0 99 ["id1"; "bar"]
     ∈ reported (sheets_equal "Orders" base_orders google_orders)
   <-> 99 <> 11)
  /\ mkRow 0 99 ["id1"; "bar"]
       ∉ reported (find_new_rows google_orders base_orders).
Proof.
  apply (diff_accounts_for_every_row "Orders" base_orders
           {| sheet_title := "Orders"; reference := None;
              hashed_rows := [mkRow 0 99 ["id1"; "bar"];
                              mkRow 1 22 ["id2"; "x"];
                              mkRow 2 33 ["id3"; "y"]] |}
           google_orders 0%nat (mkRow 0 99 ["id1"; "bar"]) eq_refl eq_refl);
    [vm_compute; reflexivity | vm_compute; reflexivity | reflexivity].
Defined.

(** ** What the push operations send *)

Lemma update_one_row_eq self view row w :
  update_one_row self view tt row w
  = if has_cells row then
      if write_ok self (patch_request view (record_for row)) then
        (Return tt,
         {| log := log w ++ [updated_line row];
            wire := wire w ++ [patch_request view (record_for row)] |})
      else
        (Raise (HttpError (url (patch_request view (record_for row)))),
         {| log := log w;
            wire := wire w ++ [patch_request view (record_for row)] |})
    else (Raise IndexError, w).
Proof.
  unfold update_one_row, mbind, M_bind, has_cells, updated_line,
    patch_request, record_for.
  rewrite record_of_row_run.
  destruct (row_content row) as [|record_id column_values]; [done|].
  unfold execute_api_request, send, mbind, M_bind. cbv zeta. simpl.
  rewrite !drop_0.
  match goal with
  | |- context [write_ok self ?r] => by destruct (write_ok self r)
  end.
Qed.

Lemma update_pushable_prefix self view good tail w :
  forallb (pushable self view) good = true ->
  for_each (good ++ tail) (update_one_row self view) tt w
  = for_each tail (update_one_row self view) tt
      {| log := log w ++ map updated_line good;
         wire := wire w
                 ++ map (fun row => patch_request view (record_for row))
                      good |}.
Proof.
  revert w. induction good as [|row good IH]; intros w Hall.
  - simpl. rewrite !app_nil_r. by destruct w.
  - simpl in Hall. apply andb_true_iff in Hall as [Hrow Hall].
    unfold pushable in Hrow. apply andb_true_iff in Hrow as [Hcells Hok].
    simpl. unfold mbind at 1, M_bind at 1.
    rewrite update_one_row_eq, Hcells, Hok, (IH _ Hall). simpl.
    by rewrite <- !app_assoc.
Qed.

(** X5. When every row has at least one cell and Gridly accepts every
    request, [update_gridly_row] returns normally after sending exactly
    one PATCH per row, in the order of the rows, each addressed to the
    record named by the row's first cell, and logging one line per row. *)
Theorem update_gridly_row_all_pushed (self : GridlyClient)
    (view : option string) (rows : list RowChecksum) (w : World) :
  forallb (pushable self view) rows = true ->
  update_gridly_row self view rows w
  = (Return tt,
     {| log := log w ++ map updated_line rows;
        wire := wire w
                ++ map (fun row => patch_request view (record_for row))
                     rows |}).
Proof.
  intros Hall. unfold update_gridly_row.
  rewrite <- (app_nil_r rows) at 1.
  by rewrite (update_pushable_prefix _ _ _ _ _ Hall).
Qed.

Lemma update_gridly_row_all_pushed_witness :
  update_gridly_row orders_gridly (Some "view1")
    [mkRow 0 99 ["id1"; "bar"]; mkRow 1 22 ["id2"]] empty_world
  = (Return tt,
     {| log := [mkLog INFO (Text "Successfully updated record id1");
                mkLog INFO (Text "Successfully updated record id2")];
        wire := [mkRequest "PATCH"
                   "https://api.gridly.com/v1/views/view1/records/id1"
                   (RecordBody (mkRecord "id1" [mkCell "column1" "bar"]));
                 mkRequest "PATCH"
                   "https://api.gridly.com/v1/views/view1/records/id2"
                   (RecordBody (mkRecord "id2" []))] |}).
Proof.
  apply (update_gridly_row_all_pushed orders_gridly (Some "view1")
           [mkRow 0 99 ["id1"; "bar"]; mkRow 1 22 ["id2"]] empty_world).
  reflexivity.
Defined.

(** X6. [update_gridly_row] stops at the first row it cannot push and
    leaves the rows after it untouched: the rows before it have been sent
    and logged.  A row without cells raises [IndexError] before any
    request for it; a row whose request Gridly rejects raises after the
    request went out, without a log line. *)
Theorem update_gridly_row_stops (self : GridlyClient) (view : option string)
    (good rest : list RowChecksum) (bad : RowChecksum) (w : World) :
  forallb (pushable self view) good = true ->
  pushable self view bad = false ->
  update_gridly_row self view (good ++ bad :: rest) w
  = if has_cells bad then
      (Raise (HttpError (url (patch_request view (record_for bad)))),
       {| log := log w ++ map updated_line good;
          wire := (wire w
                   ++ map (fun row => patch_request view (record_for row))
                        good)
                  ++ [patch_request view (record_for bad)] |})
    else
      (Raise IndexError,
       {| log := log w ++ map updated_line good;
          wire := wire w
                  ++ map (fun row => patch_request view (record_for row))
                       good |}).
Proof.
  intros Hall Hbad. unfold update_gridly_row.
  rewrite (update_pushable_prefix _ _ _ _ _ Hall). simpl.
  unfold mbind, M_bind. rewrite update_one_row_eq.
  unfold pushable in Hbad.
  destruct (has_cells bad); simpl in Hbad; [|done].
  by rewrite Hbad.
Qed.

Lemma update_gridly_row_stops_witness :
  update_gridly_row orders_gridly (Some "view1")
    [mkRow 0 99 ["id1"; "bar"]; mkRow 1 0 []; mkRow 2 33 ["id3"; "y"]]
    empty_world
  = (Raise IndexError,
     {| log := [mkLog INFO (Text "Successfully updated record id1")];
        wire := [mkRequest "PATCH"
                   "https://api.gridly.com/v1/views/view1/records/id1"
                   (RecordBody (mkRecord "id1" [mkCell "column1" "bar"]))] |}).
Proof.
  apply (update_gridly_row_stops orders_gridly (Some "view1")
           [mkRow 0 99 ["id1"; "bar"]] [mkRow 2 33 ["id3"; "y"]]
           (mkRow 1 0 []) empty_world);
    reflexivity.
Defined.

Lemma build_records_eq rows acc w :
  for_each rows append_record acc w
  = if forallb has_cells rows
    then (Return (acc ++ map record_for rows), w)
    else (Raise IndexError, w).
Proof.
  revert acc. induction rows as [|row rows IH]; intros acc.
  - simpl. by rewrite app_nil_r.
  - rewrite build_records_step. simpl. unfold has_cells at 1, record_for at 1.
    destruct (row_content row) as [|record_id column_values]; [done|].
    simpl. rewrite IH. destruct (forallb has_cells rows); [|done].
    by rewrite <- app_assoc.
Qed.

(** X7. [add_rows_to_gridly] is all or nothing.  If some row has no
    cells it raises [IndexError] before anything is sent or logged.
    Otherwise it sends one POST to the records of the view carrying one
    record per row, in order; it logs its line and returns when Gridly
    accepts the request, and raises without a log line when Gridly rejects
    it. *)
Theorem add_rows_to_gridly_all_or_nothing (self : GridlyClient)
    (view : option string) (new_rows : list RowChecksum) (w : World) :
  add_rows_to_gridly self view new_rows w
  = if forallb has_cells new_rows then
      if write_ok self (post_request view (map record_for new_rows)) then
        (Return tt,
         {| log := log w ++ [mkLog INFO (Text "New rows were added to Gridly.")];
            wire := wire w
                    ++ [post_request view (map record_for new_rows)] |})
      else
        (Raise (HttpError
                  (url (post_request view (map record_for new_rows)))),
         {| log := log w;
            wire := wire w
                    ++ [post_request view (map record_for new_rows)] |})
    else (Raise IndexError, w).
Proof.
  unfold add_rows_to_gridly, mbind, M_bind. rewrite build_records_eq.
  destruct (forallb has_cells new_rows); [|done]. simpl.
  unfold execute_api_request, send, mbind, M_bind, post_request. cbv zeta.
  match goal with
  | |- context [write_ok self ?r] => by destruct (write_ok self r)
  end.
Qed.

(** ** Reading the sheets *)

Lemma process_sheet_store sid title sheets_client hashes w :
  exists w',
    process_sheet sid title sheets_client hashes w
    = (Return (store_sheet sid sheets_client hashes title), w')
    /\ wire w' = wire w
    /\ log w `prefix_of` log w'.
Proof.
  rewrite process_sheet_run. unfold store_sheet, expected_snapshot.
  destruct (service sheets_client sid title)
    as [[|header rest]|[what|key| |msg]];
    eexists; (split; [reflexivity|]); simpl; (split; [done|]);
    repeat apply prefix_app_r; done.
Qed.

Lemma store_sheet_lookup sid sheets_client hashes title k :
  dict_get k (store_sheet sid sheets_client hashes title)
  = if decide (k = title)
    then match expected_snapshot sid sheets_client title with
         | Some sheet => Some sheet
         | None => dict_get title hashes
         end
    else dict_get k hashes.
Proof.
  unfold store_sheet. case_decide as Hk.
  - subst k. destruct (expected_snapshot sid sheets_client title); [|done].
    apply dict_get_set_eq.
  - destruct (expected_snapshot sid sheets_client title); [|done].
    by apply dict_get_set_ne.
Qed.

(** X8. [process_sheet] never raises and sends nothing to Gridly; it only
    adds to the log.  The entries of every other title are left as they
    were.  The entry of its own title becomes the snapshot of the grid
    when the service answers with at least a header row, and is left as
    it was otherwise; when the read raises, the dictionary is returned
    unchanged and the last log line is the ERROR line naming the title and
    the exception. *)
Theorem process_sheet_frame (sid title : string)
    (sheets_client : SheetsClient) (sheet_hashes : pydict SheetChecksum)
    (w : World) :
  exists sheet_hashes' w',
    process_sheet sid title sheets_client sheet_hashes w
    = (Return sheet_hashes', w')
    /\ wire w' = wire w
    /\ log w `prefix_of` log w'
    /\ (forall k, k <> title ->
                  dict_get k sheet_hashes' = dict_get k sheet_hashes)
    /\ dict_get title sheet_hashes'
       = match expected_snapshot sid sheets_client title with
         | Some sheet => Some sheet
         | None => dict_get title sheet_hashes
         end
    /\ (forall e,
          service sheets_client sid title = Raise e ->
          sheet_hashes' = sheet_hashes
          /\ last (log w')
             = Some (mkLog ERROR
                       (Text ("Error processing sheet " +:+ title +:+ ": "
                              +:+ exn_str e)))).
Proof.
  destruct (process_sheet_store sid title sheets_client sheet_hashes w)
    as (w' & Hrun & Hwire & Hlog).
  exists (store_sheet sid sheets_client sheet_hashes title), w'.
  split; [done|]. split; [done|]. split; [done|]. split; [|split].
  - intros k Hk. by rewrite store_sheet_lookup, decide_False.
  - by rewrite store_sheet_lookup, decide_True.
  - intros e He. rewrite process_sheet_run, He in Hrun.
    unfold store_sheet, expected_snapshot in *. rewrite He in *.
    split; [done|].
    destruct e; injection Hrun as <-; simpl; by rewrite last_snoc.
Qed.

Lemma read_sheets_store sid sheet_names sheets_client acc w :
  exists w',
    for_each sheet_names
      (fun hashes title => process_sheet sid title sheets_client hashes)
      acc w
    = (Return (fold_left (store_sheet sid sheets_client) sheet_names acc), w')
    /\ wire w' = wire w.
Proof.
  revert acc w. induction sheet_names as [|name names IH]; intros acc w.
  - by exists w.
  - simpl. unfold mbind, M_bind.
    destruct (process_sheet_store sid name sheets_client acc w)
      as (w1 & -> & Hwire & _).
    destruct (IH (store_sheet sid sheets_client acc name) w1)
      as (w' & -> & Hwire').
    exists w'. split; [done|]. congruence.
Qed.

Lemma read_all_sheets_fresh sid sheet_names sheets_client w :
  exists w',
    read_all_sheets sid sheet_names sheets_client w
    = (Return (fresh_hashes sid sheet_names sheets_client), w')
    /\ wire w' = wire w.
Proof. apply read_sheets_store. Qed.

Lemma fold_store_lookup sid sheets_client sheet_names acc title :
  dict_get title (fold_left (store_sheet sid sheets_client) sheet_names acc)
  = if decide (title ∈ sheet_names)
    then match expected_snapshot sid sheets_client title with
         | Some sheet => Some sheet
         | None => dict_get title acc
         end
    else dict_get title acc.
Proof.
  revert acc. induction sheet_names as [|name names IH]; intros acc.
  - by destruct (decide (title ∈ [])) as [?%elem_of_nil|].
  - cbn [fold_left]. rewrite IH, store_sheet_lookup.
    destruct (decide (title ∈ name :: names)) as [Hin|Hnin];
      destruct (decide (title ∈ names)) as [Hin'|Hnin'];
      destruct (decide (title = name)) as [->|Hne];
      try done;
      try (by destruct (expected_snapshot sid sheets_client name));
      exfalso.
    + apply elem_of_cons in Hin as [?|?]; done.
    + apply Hnin. by apply list_elem_of_further.
    + apply Hnin. by apply list_elem_of_further.
    + apply Hnin. apply list_elem_of_here.
Qed.

Lemma fresh_hashes_lookup sid sheet_names sheets_client title :
  dict_get title (fresh_hashes sid sheet_names sheets_client)
  = if decide (title ∈ sheet_names)
    then expected_snapshot sid sheets_client title
    else None.
Proof.
  unfold fresh_hashes. rewrite fold_store_lookup.
  destruct (decide (title ∈ sheet_names)); [|done].
  by destruct (expected_snapshot sid sheets_client title).
Qed.

(** X9. Reading all configured sheets never raises and sends nothing to
    Gridly.  The dictionary it builds holds a title exactly when the
    title is configured and the service answered its read with at least a
    header row; the entry is then the snapshot of that answer, with no
    reference.  Titles whose read raised or returned no rows at all are
    absent. *)
Theorem read_all_sheets_lookup (sid : string) (sheet_names : list string)
    (sheets_client : SheetsClient) (w : World) :
  exists hashes w',
    read_all_sheets sid sheet_names sheets_client w = (Return hashes, w')
    /\ wire w' = wire w
    /\ forall title,
         dict_get title hashes
         = if decide (title ∈ sheet_names)
           then match service sheets_client sid title with
                | Return (header :: rest) =>
                    Some {| sheet_title := title; reference := None;
                            hashed_rows := hash_sheet_rows (header :: rest) |}
                | _ => None
                end
           else None.
Proof.
  destruct (read_all_sheets_fresh sid sheet_names sheets_client w)
    as (w' & Hrun & Hwire).
  exists (fresh_hashes sid sheet_names sheets_client), w'.
  split; [done|]. split; [done|].
  intros title. apply fresh_hashes_lookup.
Qed.

(** X10. A pass that returns normally has found every table of the
    destination state among the configured names, with a read that
    answered at least a header row.  A destination table that is not
    configured, or whose sheet has no rows at all, makes the pass end
    with an exception. *)
Theorem sync_cycle_needs_every_table (sid : string)
    (sheet_names : list string) (sheets_client : SheetsClient)
    (gridly_client : GridlyClient)
    (gridly_sheets gridly_sheets' : pydict SheetChecksum) (w w' : World)
    (title : string) (sheet : SheetChecksum) :
  sync_cycle sid sheet_names sheets_client gridly_client gridly_sheets w
  = (Return gridly_sheets', w') ->
  (title, sheet) ∈ gridly_sheets ->
  title ∈ sheet_names
  /\ exists header rest,
       service sheets_client sid title = Return (header :: rest).
Proof.
  unfold sync_cycle. intros Hrun Hin.
  apply bind_returns in Hrun as ([] & w0 & _ & Hrun).
  apply bind_returns in Hrun as (hashes & w1 & Hread & Hrun).
  apply bind_returns in Hrun as (state & w2 & Hloop & _).
  destruct (read_all_sheets_fresh sid sheet_names sheets_client w0)
    as (w1' & Hfresh & _).
  rewrite Hfresh in Hread. injection Hread as <- <-.
  destruct (dict_get title (fresh_hashes sid sheet_names sheets_client))
    as [found|] eqn:Hget.
  - rewrite fresh_hashes_lookup in Hget.
    case_decide as Hnames; [|done]. split; [done|].
    unfold expected_snapshot in Hget.
    destruct (service sheets_client sid title) as [[|header rest]|e];
      try done. by exists header, rest.
  - destruct (sync_loop_raises gridly_client (dict_items gridly_sheets)
                (fresh_hashes sid sheet_names sheets_client, gridly_sheets)
                w1' title sheet Hin Hget) as (e & w3 & Hraise).
    rewrite Hraise in Hloop. done.
Qed.

Lemma sync_cycle_needs_every_table_witness :
  "Stock" ∈ ["Orders"; "Stock"]
  /\ exists header rest,
       service two_tables_start "sid" "Stock" = Return (header :: rest).
Proof.
  eapply (sync_cycle_needs_every_table "sid" ["Orders"; "Stock"]
            two_tables_start two_tables_gridly two_tables_state _
            empty_world _ "Stock"
            {| sheet_title := "Stock"; reference := Some "view1";
               hashed_rows := [mkRow 0 866313408 ["id1"; "bar"]] |}).
  - vm_compute. reflexivity.
  - apply list_elem_of_further, list_elem_of_here.
Defined.

(** ** Reading the grids *)











(** ** One table of a pass *)

Lemma set_reference_lookup title google_sheet ref
    (current_google_hash : pydict SheetChecksum) k :
  dict_get title current_google_hash = Some google_sheet ->
  dict_get k (dict_set title (set_reference google_sheet ref)
                current_google_hash)
  = (fun sheet => if decide (k = title) then set_reference sheet ref
                  else sheet)
    <$> dict_get k current_google_hash.
Proof.
  intros Hget. destruct (decide (k = title)) as [->|Hne].
  - by rewrite dict_get_set_eq, Hget.
  - rewrite dict_get_set_ne by done.
    by destruct (dict_get k current_google_hash).
Qed.

Lemma sheets_equal_set_reference title google_sheet ref cgh t sheet :
  dict_get title cgh = Some google_sheet ->
  sheets_equal t sheet (dict_set title (set_reference google_sheet ref) cgh)
  = sheets_equal t sheet cgh.
Proof.
  intros Hget. unfold sheets_equal.
  rewrite (set_reference_lookup _ _ _ _ _ Hget).
  destruct (dict_get t cgh) as [found|]; simpl; [|done].
  by case_decide.
Qed.

Lemma find_new_rows_set_reference title google_sheet ref cgh sheet :
  dict_get title cgh = Some google_sheet ->
  find_new_rows (dict_set title (set_reference google_sheet ref) cgh) sheet
  = find_new_rows cgh sheet.
Proof.
  intros Hget. unfold find_new_rows.
  rewrite (set_reference_lookup _ _ _ _ _ Hget).
  destruct (dict_get (sheet_title sheet) cgh) as [found|]; simpl; [|done].
  by case_decide.
Qed.

Lemma update_gridly_row_returns self view rows w w' :
  update_gridly_row self view rows w = (Return tt, w') ->
  w' = {| log := log w ++ map updated_line rows;
          wire := wire w
                  ++ map (fun row => patch_request view (record_for row))
                       rows |}.
Proof.
  unfold update_gridly_row. revert w.
  induction rows as [|row rows IH]; intros w.
  - simpl. intros [= <-]. rewrite !app_nil_r. by destruct w.
  - simpl. unfold mbind, M_bind. rewrite update_one_row_eq.
    destruct (has_cells row); [|done].
    destruct (write_ok self _); [|done].
    intros Hrest. rewrite (IH _ Hrest). simpl.
    by rewrite <- !app_assoc.
Qed.

Lemma add_rows_to_gridly_returns self view rows w w' :
  add_rows_to_gridly self view rows w = (Return tt, w') ->
  w' = {| log := log w ++ [mkLog INFO (Text "New rows were added to Gridly.")];
          wire := wire w ++ [post_request view (map record_for rows)] |}.
Proof.
  unfold add_rows_to_gridly, mbind, M_bind. rewrite build_records_eq.
  destruct (forallb has_cells rows); [|done]. simpl.
  unfold execute_api_request, send, mbind, M_bind, post_request. cbv zeta.
  match goal with
  | |- context [write_ok self ?r] => destruct (write_ok self r)
  end; [|done].
  by intros [= <-].
Qed.

(** The dictionary after the reference of [title] was carried over. *)
Lemma sync_sheet_returns gridly_client cgh g title sheet w state w' :
  sync_sheet gridly_client (cgh, g) (title, sheet) w = (Return state, w') ->
  exists google_sheet,
    dict_get title cgh = Some google_sheet
    /\ state = (dict_set title (set_reference google_sheet (reference sheet))
                  cgh,
                dict_set title (set_reference google_sheet (reference sheet))
                  cgh).
Proof.
  unfold sync_sheet, dict_getitem. simpl. intros Hrun.
  destruct (dict_get title cgh) as [google_sheet|] eqn:Hget.
  - exists google_sheet. split; [done|].
    apply bind_returns in Hrun as (? & ? & [= <- <-] & Hrun).
    apply bind_returns in Hrun as (? & ? & _ & Hrun).
    apply bind_returns in Hrun as (? & ? & _ & Hrun).
    apply bind_returns in Hrun as (? & ? & _ & Hrun).
    by injection Hrun as <- _.
  - apply bind_returns in Hrun as (? & ? & Hraise & _). done.
Qed.

(** X13. When the pass over one table returns normally, what it sent to
    Gridly is exactly one PATCH per changed row, in position order,
    followed, if there are new rows, by one POST carrying all of them in
    order; nothing else is sent, and nothing at all when there is neither
    a changed nor a new row. *)
Theorem sync_sheet_sends_changes_then_new (gridly_client : GridlyClient)
    (current_google_hash gridly_sheets : pydict SheetChecksum)
    (title : string) (sheet : SheetChecksum) (w w' : World)
    (state : pydict SheetChecksum * pydict SheetChecksum) :
  sync_sheet gridly_client (current_google_hash, gridly_sheets)
    (title, sheet) w
  = (Return state, w') ->
  wire w'
  = wire w
    ++ map (fun row => patch_request (reference sheet) (record_for row))
         (reported (sheets_equal title sheet current_google_hash))
    ++ match reported (find_new_rows current_google_hash sheet) with
       | [] => []
       | row :: rows =>
           [post_request (reference sheet) (map record_for (row :: rows))]
       end.
Proof.
  intros Hrun.
  destruct (sync_sheet_returns _ _ _ _ _ _ _ _ Hrun)
    as (google_sheet & Hget & _).
  unfold sync_sheet, dict_getitem in Hrun. simpl in Hrun.
  rewrite Hget in Hrun.
  apply bind_returns in Hrun as (? & w0 & [= <- <-] & Hrun).
  rewrite (sheets_equal_set_reference _ _ _ _ _ _ Hget) in Hrun.
  rewrite (find_new_rows_set_reference _ _ _ _ _ Hget) in Hrun.
  apply bind_returns in Hrun as ([] & w1 & Hpatch & Hrun).
  apply bind_returns in Hrun as ([] & w2 & Hlog & Hrun).
  apply bind_returns in Hrun as ([] & w3 & Hpost & Hrun).
  injection Hrun as _ <-.
  injection Hlog as <-.
  assert (Hw1 : wire w1
            = wire w
              ++ map (fun row =>
                        patch_request (reference sheet) (record_for row))
                   (reported (sheets_equal title sheet current_google_hash))).
  { destruct (sheets_equal title sheet current_google_hash)
      as [[|row rows]|]; simpl in Hpatch |- *.
    - injection Hpatch as <-. by rewrite app_nil_r.
    - apply bind_returns in Hpatch as ([] & w4 & [= <-] & Hpatch).
      apply update_gridly_row_returns in Hpatch as ->. done.
    - injection Hpatch as <-. by rewrite app_nil_r. }
  destruct (find_new_rows current_google_hash sheet) as [[|row rows]|];
    simpl in Hpost |- *.
  - injection Hpost as <-. simpl. by rewrite Hw1, app_nil_r.
  - apply bind_returns in Hpost as ([] & w4 & [= <-] & Hpost).
    apply add_rows_to_gridly_returns in Hpost as ->. simpl.
    by rewrite Hw1, <- app_assoc.
  - injection Hpost as <-. simpl. by rewrite Hw1, app_nil_r.
Qed.

Lemma sync_sheet_sends_changes_then_new_witness :
  wire (snd (sync_sheet orders_gridly (google_orders, [])
               ("Orders", base_orders) empty_world))
  = [mkRequest "PATCH" "https://api.gridly.com/v1/views/view1/records/id1"
       (RecordBody (mkRecord "id1" [mkCell "column1" "bar"]));
     mkRequest "POST" "https://api.gridly.com/v1/views/view1/records"
       (RecordsBody [mkRecord "id3" [mkCell "column1" "y"]])].
Proof.
  destruct (sync_sheet orders_gridly (google_orders, [])
              ("Orders", base_orders) empty_world) as [result w'] eqn:Hrun.
  assert (Hret : exists state, result = Return state).
  { vm_compute in Hrun. injection Hrun as <- _. by eexists. }
  destruct Hret as [state ->]. simpl.
  rewrite (sync_sheet_sends_changes_then_new _ _ _ _ _ _ _ _ Hrun).
  reflexivity.
Defined.

(** ** The state after a pass *)

Lemma dict_get_not_key {V : Type} (k : string) (d : pydict V) :
  k ∉ map fst d -> dict_get k d = None.
Proof.
  induction d as [|[k' v'] d IH]; simpl; intros Hk; [done|].
  destruct (String.eqb k k') eqn:Heq.
  - apply String.eqb_eq in Heq as ->. exfalso. apply Hk, list_elem_of_here.
  - apply IH. intros Hin. apply Hk. by apply list_elem_of_further.
Qed.

(** The loop of a pass, seen from its result: every table it went through
    has its reference carried over; nothing else changes. *)
Lemma sync_loop_lookup gridly_client items cgh g w cgh' g' w' title :
  NoDup (map fst items) ->
  for_each items (sync_sheet gridly_client) (cgh, g) w
  = (Return (cgh', g'), w') ->
  (items <> [] -> g' = cgh')
  /\ dict_get title cgh'
     = match dict_get title items with
       | Some old =>
           (fun fresh => set_reference fresh (reference old))
           <$> dict_get title cgh
       | None => dict_get title cgh
       end.
Proof.
  revert cgh g w. induction items as [|[k sheet] items IH];
    intros cgh g w Hnodup Hrun.
  - simpl in Hrun. injection Hrun as <- <- <-. done.
  - simpl in Hrun. apply bind_returns in Hrun as ([cgh1 g1] & w1 & Hstep & Hrun).
    apply sync_sheet_returns in Hstep as (google_sheet & Hget & [= -> ->]).
    simpl in Hnodup. apply NoDup_cons in Hnodup as [Hk Hnodup].
    destruct (IH _ _ _ Hnodup Hrun) as [Hg Hlookup].
    split.
    + intros _. destruct items as [|item items]; [|by apply Hg].
      simpl in Hrun. by injection Hrun as <- <- <-.
    + rewrite Hlookup, (set_reference_lookup _ _ _ _ _ Hget). simpl.
      destruct (String.eqb title k) eqn:Heq.
      * apply String.eqb_eq in Heq as ->.
        rewrite (dict_get_not_key k items Hk), Hget. simpl.
        by rewrite decide_True.
      * apply String.eqb_neq in Heq.
        destruct (dict_get title items) as [old|];
          destruct (dict_get title cgh) as [found|]; simpl; try done;
          by rewrite decide_False.
Qed.

(** X14. A pass that returns normally over a non-empty destination state
    replaces the state by what was just read from the sheets, whatever
    was pushed: the new state holds a title exactly when the title is
    configured and its read answered at least a header row, with the rows
    of that answer.  The reference of a table that was in the old state is
    carried over; a table that was not in the old state has no
    reference. *)
Theorem pass_replaces_state (sid : string) (sheet_names : list string)
    (sheets_client : SheetsClient) (gridly_client : GridlyClient)
    (gridly_sheets gridly_sheets' : pydict SheetChecksum) (w w' : World)
    (title : string) :
  sync_cycle sid sheet_names sheets_client gridly_client gridly_sheets w
  = (Return gridly_sheets', w') ->
  gridly_sheets <> [] ->
  NoDup (map fst gridly_sheets) ->
  dict_get title gridly_sheets'
  = (fun fresh =>
       set_reference fresh
         (match dict_get title gridly_sheets with
          | Some old => reference old
          | None => None
          end))
    <$> (if decide (title ∈ sheet_names)
         then expected_snapshot sid sheets_client title
         else None).
Proof.
  unfold sync_cycle. intros Hrun Hne Hnodup.
  apply bind_returns in Hrun as ([] & w0 & _ & Hrun).
  apply bind_returns in Hrun as (hashes & w1 & Hread & Hrun).
  apply bind_returns in Hrun as ([cgh' g'] & w2 & Hloop & [= <- <-]).
  destruct (read_all_sheets_fresh sid sheet_names sheets_client w0)
    as (w1' & Hfresh & _).
  rewrite Hfresh in Hread. injection Hread as <- <-.
  destruct (sync_loop_lookup _ _ _ _ _ _ _ _ title Hnodup Hloop)
    as [Hg Hlookup].
  simpl. rewrite (Hg Hne), Hlookup.
  unfold dict_items. rewrite fresh_hashes_lookup.
  destruct (dict_get title gridly_sheets) as [old|]; [done|].
  destruct (decide (title ∈ sheet_names)); [|done].
  unfold expected_snapshot.
  by destruct (service sheets_client sid title) as [[|header rest]|failure].
Qed.

Lemma pass_replaces_state_witness :
  exists gridly_sheets' w',
    sync_cycle "sid" ["Orders"; "Stock"] two_tables_start two_tables_gridly
      two_tables_state empty_world
    = (Return gridly_sheets', w')
    /\ dict_get "Stock" gridly_sheets'
       = Some {| sheet_title := "Stock"; reference := Some "view1";
                 hashed_rows := [mkRow 0 866313408 ["id1"; "bar"]] |}.
Proof.
  destruct (sync_cycle "sid" ["Orders"; "Stock"] two_tables_start
              two_tables_gridly two_tables_state empty_world)
    as [result w'] eqn:Hrun.
  assert (Hret : exists state, result = Return state).
  { vm_compute in Hrun. injection Hrun as <- _. by eexists. }
  destruct Hret as [gridly_sheets' ->].
  exists gridly_sheets', w'. split; [reflexivity|].
  rewrite (pass_replaces_state _ _ _ _ _ _ _ _ "Stock" Hrun).
  - vm_compute. reflexivity.
  - discriminate.
  - apply (bool_decide_unpack (NoDup (map fst two_tables_state))).
    vm_compute. exact I.
Defined.

(** ** A second pass over unchanged sheets *)

Lemma same_rows_refl d : same_rows d d.
Proof. induction d; constructor; auto. Qed.

Lemma same_rows_trans d1 d2 d3 :
  same_rows d1 d2 -> same_rows d2 d3 -> same_rows d1 d3.
Proof.
  unfold same_rows. intros H12. revert d3.
  induction H12 as [|a b d1 d2 (Hk & Ht & Hr) _ IH]; intros d3 H23.
  - by inversion H23.
  - inversion H23 as [|b' c d2' d3' (Hk' & Ht' & Hr') H23']; subst.
    constructor; [|by apply IH]. repeat split; congruence.
Qed.

Lemma same_rows_set_reference title google_sheet ref d :
  dict_get title d = Some google_sheet ->
  same_rows (dict_set title (set_reference google_sheet ref) d) d.
Proof.
  induction d as [|[k v] d IH]; simpl; [done|].
  destruct (String.eqb title k).
  - intros [= ->]. constructor; [done|apply same_rows_refl].
  - intros Hget. constructor; [done|by apply IH].
Qed.

Lemma sync_loop_same_rows gridly_client items cgh g w cgh' g' w' :
  for_each items (sync_sheet gridly_client) (cgh, g) w
  = (Return (cgh', g'), w') ->
  same_rows cgh' cgh.
Proof.
  revert cgh g w. induction items as [|[k sheet] items IH];
    intros cgh g w Hrun.
  - simpl in Hrun. injection Hrun as <- _ _. apply same_rows_refl.
  - simpl in Hrun.
    apply bind_returns in Hrun as ([cgh1 g1] & w1 & Hstep & Hrun).
    apply sync_sheet_returns in Hstep as (google_sheet & Hget & [= -> ->]).
    eapply same_rows_trans; [by eapply IH|].
    by apply same_rows_set_reference.
Qed.

Lemma dict_set_key_elem {V : Type} (k x : string) (v : V) (d : pydict V) :
  x ∈ map fst (dict_set k v d) -> x = k \/ x ∈ map fst d.
Proof.
  induction d as [|[k' v'] d IH]; simpl.
  - intros [->|[]%elem_of_nil]%elem_of_cons. by left.
  - destruct (String.eqb k k'); simpl; [by right|].
    intros [->|Hin]%elem_of_cons.
    + right. apply list_elem_of_here.
    + destruct (IH Hin) as [?|?]; [by left|].
      right. by apply list_elem_of_further.
Qed.

Lemma dict_set_nodup {V : Type} (k : string) (v : V) (d : pydict V) :
  NoDup (map fst d) -> NoDup (map fst (dict_set k v d)).
Proof.
  induction d as [|[k' v'] d IH]; simpl; intros Hd.
  - apply NoDup_cons. split; [apply not_elem_of_nil|constructor].
  - apply NoDup_cons in Hd as [Hk' Hd].
    destruct (String.eqb k k') eqn:Heq; simpl.
    + by apply NoDup_cons.
    + apply NoDup_cons. split; [|by apply IH].
      intros [->|?]%dict_set_key_elem; [|done].
      by rewrite String.eqb_refl in Heq.
Qed.

Lemma titled_gapless_set k sheet d :
  sheet_title sheet = k -> gapless (hashed_rows sheet) ->
  titled_gapless d -> titled_gapless (dict_set k sheet d).
Proof.
  intros Ht Hg. unfold titled_gapless.
  induction d as [|[k' v'] d IH]; simpl; intros Hd.
  - by repeat constructor.
  - apply Forall_cons in Hd as [Hv Hd].
    destruct (String.eqb k k') eqn:Hk; constructor; auto.
    apply String.eqb_eq in Hk. subst k'. done.
Qed.

Lemma fresh_hashes_well_formed sid sheet_names sheets_client :
  NoDup (map fst (fresh_hashes sid sheet_names sheets_client))
  /\ titled_gapless (fresh_hashes sid sheet_names sheets_client).
Proof.
  unfold fresh_hashes.
  assert (Hinit : NoDup (map fst ([] : pydict SheetChecksum))
                  /\ titled_gapless []) by (split; constructor).
  revert Hinit. generalize ([] : pydict SheetChecksum).
  induction sheet_names as [|name names IH]; intros acc Hacc; [done|].
  simpl. apply IH. unfold store_sheet, expected_snapshot.
  destruct (service sheets_client sid name) as [[|header rest]|failure];
    try done.
  destruct Hacc as [Hnodup Htitled]. split.
  - by apply dict_set_nodup.
  - apply titled_gapless_set; [done| |done]. apply hash_sheet_rows_gapless.
Qed.

Lemma dict_get_app_skip {V : Type} (k : string) (done d : pydict V) :
  k ∉ map fst done -> dict_get k (done ++ d) = dict_get k d.
Proof.
  induction done as [|[k' v'] done IH]; simpl; intros Hk; [done|].
  destruct (String.eqb k k') eqn:Heq.
  - apply String.eqb_eq in Heq as ->. exfalso. apply Hk, list_elem_of_here.
  - apply IH. intros Hin. apply Hk. by apply list_elem_of_further.
Qed.

Lemma dict_set_app_skip {V : Type} (k : string) (v : V) (done d : pydict V) :
  k ∉ map fst done -> dict_set k v (done ++ d) = done ++ dict_set k v d.
Proof.
  induction done as [|[k' v'] done IH]; simpl; intros Hk; [done|].
  destruct (String.eqb k k') eqn:Heq.
  - apply String.eqb_eq in Heq as ->. exfalso. apply Hk, list_elem_of_here.
  - f_equal. apply IH. intros Hin. apply Hk. by apply list_elem_of_further.
Qed.

Lemma sheets_equal_self title baseline candidate google_sheets :
  dict_get title google_sheets = Some candidate ->
  hashed_rows candidate = hashed_rows baseline ->
  gapless (hashed_rows baseline) ->
  sheets_equal title baseline google_sheets = Some [].
Proof.
  intros Hget Hrows Hg. rewrite (sheets_equal_filter _ _ _ _ Hget), Hrows.
  f_equal. apply filter_none. intros row Hin.
  rewrite row_differs_gapless by done. by apply own_row_unchanged.
Qed.

(** The pass over a table whose rows are those of the destination state
    sends nothing. *)
Lemma sync_sheet_unchanged gridly_client cgh g title sheet google_sheet w :
  dict_get title cgh = Some google_sheet ->
  sheet_title sheet = title ->
  hashed_rows google_sheet = hashed_rows sheet ->
  gapless (hashed_rows sheet) ->
  exists w',
    sync_sheet gridly_client (cgh, g) (title, sheet) w
    = (Return (dict_set title (set_reference google_sheet (reference sheet))
                 cgh,
               dict_set title (set_reference google_sheet (reference sheet))
                 cgh), w')
    /\ wire w' = wire w.
Proof.
  intros Hget Htitle Hrows Hg.
  unfold sync_sheet, dict_getitem. simpl. rewrite Hget.
  unfold mbind at 1, M_bind at 1, mret at 1, M_ret at 1.
  rewrite (sheets_equal_set_reference _ _ _ _ _ _ Hget).
  rewrite (find_new_rows_set_reference _ _ _ _ _ Hget).
  rewrite (sheets_equal_self _ _ _ _ Hget Hrows Hg).
  rewrite (find_new_rows_drop _ _ google_sheet) by (by rewrite Htitle).
  rewrite decide_True by (rewrite Hrows; lia).
  eexists. split; [reflexivity|]. done.
Qed.

Lemma second_loop gridly_client items rest done g w :
  same_rows items rest ->
  titled_gapless rest ->
  NoDup (map fst (done ++ rest)) ->
  exists state w',
    for_each items (sync_sheet gridly_client) (done ++ rest, g) w
    = (Return state, w')
    /\ wire w' = wire w
    /\ fst state = done ++ items
    /\ snd state = match items with [] => g | _ => done ++ items end.
Proof.
  intros Hsame. revert done g w.
  induction Hsame as [|[k sheet] [k' fresh] items rest (Hk & Ht & Hr) Hsame IH];
    intros done g w Htitled Hnodup.
  - exists (done ++ [], g), w. by rewrite app_nil_r.
  - simpl in Hk, Ht, Hr. subst k'.
    apply Forall_cons in Htitled as [[Hfresh Hgap] Htitled].
    simpl in Hfresh, Hgap.
    assert (Hkdone : k ∉ map fst done).
    { rewrite map_app in Hnodup. apply NoDup_app in Hnodup as (_ & Hdisj & _).
      intros Hin. apply (Hdisj k Hin). simpl. apply list_elem_of_here. }
    assert (Hget : dict_get k (done ++ (k, fresh) :: rest) = Some fresh).
    { rewrite dict_get_app_skip by done. simpl. by rewrite String.eqb_refl. }
    assert (Hset : dict_set k (set_reference fresh (reference sheet))
                     (done ++ (k, fresh) :: rest)
                   = (done ++ [(k, sheet)]) ++ rest).
    { rewrite dict_set_app_skip by done. simpl. rewrite String.eqb_refl.
      rewrite <- app_assoc. simpl. do 3 f_equal.
      destruct sheet, fresh. simpl in *. by subst. }
    destruct (sync_sheet_unchanged gridly_client _ g k sheet fresh w Hget)
      as (w1 & Hstep & Hwire1); [congruence|done|congruence|].
    rewrite Hset in Hstep.
    destruct (IH (done ++ [(k, sheet)]) ((done ++ [(k, sheet)]) ++ rest) w1)
      as (state & w' & Hrun & Hwire & Hfst & Hsnd); [done| |].
    { rewrite <- app_assoc. simpl.
      rewrite !map_app in Hnodup |- *. done. }
    exists state, w'. cbn [for_each]. unfold mbind, M_bind.
    unfold pydict in *. rewrite Hstep.
    split; [done|]. split; [congruence|].
    rewrite <- app_assoc in Hfst, Hsnd. simpl in Hfst, Hsnd.
    split; [done|].
    rewrite Hsnd. destruct items as [|item items].
    + by inversion Hsame.
    + by rewrite <- app_assoc.
Qed.

(** X15. After a pass that returned normally, another pass over the same
    sheet data sends nothing to Gridly and returns the same destination
    state again. *)
Theorem second_pass_sends_nothing (sid : string) (sheet_names : list string)
    (sheets_client : SheetsClient) (gridly_client : GridlyClient)
    (gridly_sheets gridly_sheets' : pydict SheetChecksum) (w w' w2 : World) :
  sync_cycle sid sheet_names sheets_client gridly_client gridly_sheets w
  = (Return gridly_sheets', w') ->
  exists w3,
    sync_cycle sid sheet_names sheets_client gridly_client gridly_sheets' w2
    = (Return gridly_sheets', w3)
    /\ wire w3 = wire w2.
Proof.
  intros Hrun.
  assert (Hshape : gridly_sheets' = []
                   \/ same_rows gridly_sheets'
                        (fresh_hashes sid sheet_names sheets_client)).
  { unfold sync_cycle in Hrun.
    apply bind_returns in Hrun as ([] & w0 & _ & Hrun).
    apply bind_returns in Hrun as (hashes & w1 & Hread & Hrun).
    apply bind_returns in Hrun as ([cgh' g'] & w4 & Hloop & [= <- <-]).
    destruct (read_all_sheets_fresh sid sheet_names sheets_client w0)
      as (w1' & Hfresh & _).
    rewrite Hfresh in Hread. injection Hread as <- <-.
    destruct gridly_sheets as [|item items].
    - left. simpl in Hloop. by injection Hloop as _ <- _.
    - right. simpl.
      assert (Hnodup : NoDup (map fst ([] : pydict SheetChecksum)))
        by constructor.
      pose proof (sync_loop_same_rows _ _ _ _ _ _ _ _ Hloop) as Hsame.
      unfold dict_items in Hloop. simpl in Hloop.
      apply bind_returns in Hloop as ([cgh1 g1] & w5 & Hstep & Hloop).
      destruct item as [k sheet].
      apply sync_sheet_returns in Hstep as (google_sheet & _ & [= -> ->]).
      destruct items as [|item items].
      + simpl in Hloop. injection Hloop as <- <- _. done.
      + assert (Hg : g' = cgh'); [|by rewrite Hg].
        clear Hsame.
        revert Hloop. generalize (item :: items).
        generalize (dict_set k (set_reference google_sheet (reference sheet))
                      (fresh_hashes sid sheet_names sheets_client)).
        intros start l. revert start w5.
        induction l as [|[k2 s2] l IHl]; intros start w5 Hloop.
        * simpl in Hloop. by injection Hloop as <- <- _.
        * simpl in Hloop.
          apply bind_returns in Hloop as ([cgh2 g2] & w6 & Hstep & Hloop).
          apply sync_sheet_returns in Hstep as (gs2 & _ & [= -> ->]).
          by eapply IHl. }
  unfold sync_cycle, mbind, M_bind, logging_info.
  destruct (read_all_sheets_fresh sid sheet_names sheets_client
              {| log := log w2
                        ++ [mkLog INFO
                              (Text "Starting a new Gridly synchronization check...")];
                 wire := wire w2 |})
    as (w1 & -> & Hw1).
  destruct Hshape as [->|Hsame].
  - simpl. by exists w1.
  - destruct (fresh_hashes_well_formed sid sheet_names sheets_client)
      as [Hnodup Htitled].
    destruct (second_loop gridly_client gridly_sheets'
                (fresh_hashes sid sheet_names sheets_client) []
                gridly_sheets' w1 Hsame Htitled Hnodup)
      as ([cgh g] & w3 & Hloop & Hwire & Hfst & Hsnd).
    simpl in Hloop, Hfst, Hsnd. unfold dict_items, pydict in *.
    rewrite Hloop. simpl.
    exists w3. split; [|by rewrite Hwire, Hw1].
    do 2 f_equal. rewrite Hsnd. by destruct gridly_sheets'.
Qed.

Lemma second_pass_sends_nothing_witness :
  exists gridly_sheets' w' w3,
    sync_cycle "sid" ["Orders"] orders_client orders_gridly
      [("Orders", base_orders)] empty_world
    = (Return gridly_sheets', w')
    /\ sync_cycle "sid" ["Orders"] orders_client orders_gridly
         gridly_sheets' w'
       = (Return gridly_sheets', w3)
    /\ wire w3 = wire w'.
Proof.
  destruct (sync_cycle "sid" ["Orders"] orders_client orders_gridly
              [("Orders", base_orders)] empty_world)
    as [result w'] eqn:Hrun.
  assert (Hret : exists state, result = Return state).
  { vm_compute in Hrun. injection Hrun as <- _. by eexists. }
  destruct Hret as [gridly_sheets' ->].
  destruct (second_pass_sends_nothing _ _ _ _ _ _ _ _ w' Hrun)
    as (w3 & Hsecond & Hwire).
  exists gridly_sheets', w', w3.
  split; [reflexivity|]. split; [exact Hsecond|exact Hwire].
Defined.

(** ** An empty destination state *)

Lemma sync_cycle_empty sid sheet_names sheets_client gridly_client w :
  exists w',
    sync_cycle sid sheet_names sheets_client gridly_client [] w
    = (Return [], w')
    /\ wire w' = wire w.
Proof.
  unfold sync_cycle, mbind, M_bind, logging_info.
  destruct (read_all_sheets_fresh sid sheet_names sheets_client
              {| log := log w
                        ++ [mkLog INFO
                              (Text "Starting a new Gridly synchronization check...")];
                 wire := wire w |})
    as (w1 & -> & Hw1).
  simpl. by exists w1.
Qed.

(** X16. With an empty destination state (no grid was stored at the
    bootstrap) the passes only read the sheets: whatever the sheets hold
    and however many passes run, nothing is ever sent to Gridly, no pass
    raises, and the state stays empty. *)
Theorem empty_destination_never_syncs (sid : string)
    (sheet_names : list string) (passes : list SheetsClient)
    (gridly_client : GridlyClient) (w : World) :
  exists w',
    run_cycles sid sheet_names passes gridly_client [] w = (Return [], w')
    /\ wire w' = wire w.
Proof.
  unfold run_cycles. revert w.
  induction passes as [|sheets_client passes IH]; intros w.
  - by exists w.
  - cbn [for_each]. unfold mbind, M_bind.
    destruct (sync_cycle_empty sid sheet_names sheets_client gridly_client w)
      as (w1 & -> & Hw1).
    destruct (IH w1) as (w' & -> & Hw').
    exists w'. split; [done|]. congruence.
Qed.

(** ** Empty cells *)

(** X17. Empty cells do not enter the checksum: inserting or removing an
    empty string anywhere in a row leaves its checksum as it was, so a
    row that only gained or lost empty cells is not seen as changed. *)
Theorem compute_row_hash_ignores_empty_cells (before after : list string) :
  compute_row_hash (before ++ EmptyString :: after)
  = compute_row_hash (before ++ after).
Proof.
  unfold compute_row_hash. rewrite !encode_join, !map_app. simpl.
  by rewrite !concat_app.
Qed.
